(** * Gesture recognition: classifier and AR interface

    A shallow embedding of [gesture_recognition/gesture_classifier.py] and of
    the session logic of [gesture_recognition/ar_interface.py], with the
    properties stated about them.

    Numbers are Python floats, that is IEEE 754 binary64 values: they are
    modelled by Rocq's primitive floats, whose operations round to nearest
    even as the hardware does.  Python code that can raise is modelled in an
    error monad that names the exception. *)

From Stdlib Require Import Floats ZArith Lia.
From stdpp Require Import gmap strings list.

Set Warnings "-inexact-float".
Set Default Proof Using "Type".

(** ** Python exceptions and the operations that raise them *)

Inductive exn : Type :=
| IndexError
| KeyError
| AttributeError
| OverflowError
| ValueError.

Inductive result (A : Type) : Type :=
| Ok (a : A)
| Raise (e : exn).
Arguments Ok {A} a.
Arguments Raise {A} e.

#[global] Instance result_ret : MRet result := λ A a, Ok a.
#[global] Instance result_bind : MBind result := λ A B f m,
  match m with
  | Ok a => f a
  | Raise e => Raise e
  end.

Definition returns {A} (m : result A) : Prop := ∃ a, m = Ok a.

(** [seq[i]] on a Python list, for a non-negative index. *)
Definition py_getitem {A} (seq : list A) (i : nat) : result A :=
  match seq !! i with
  | Some a => Ok a
  | None => Raise IndexError
  end.

(** [d[k]] and [k in d] on a Python dict. *)
Definition py_dict_getitem `{Countable K} {A} (d : gmap K A) (k : K) : result A :=
  match d !! k with
  | Some a => Ok a
  | None => Raise KeyError
  end.

Definition py_in `{Countable K} {A} (k : K) (d : gmap K A) : bool :=
  bool_decide (is_Some (d !! k)).

(** [o.attr] and [o.method(..)] on an object that may be [None]. *)
Definition py_attr {A} (o : option A) : result A :=
  match o with
  | Some a => Ok a
  | None => Raise AttributeError
  end.

(** [d.values()]; the order is the map's own, and it is only ever consumed
    by [all], [any] and [sum], which do not depend on it. *)
Definition py_dict_values {A} (d : gmap string A) : list A :=
  (map_to_list d).*2.

Definition py_all (bs : list bool) : bool := forallb id bs.
Definition py_any (bs : list bool) : bool := existsb id bs.
Definition py_sum (bs : list bool) : nat := length (filter (λ b, b = true) bs).

(** Short-circuit [a and b], [a or b] and [not a] over expressions that may
    raise: the right operand is evaluated only when the left one decides
    nothing. *)
Definition py_and (a b : result bool) : result bool :=
  v ← a; if v : bool then b else Ok false.
Definition py_or (a b : result bool) : result bool :=
  v ← a; if v : bool then Ok true else b.
Definition py_not (a : result bool) : result bool :=
  v ← a; Ok (negb v).

(** [v ** 2] on a Python float.  CPython's [float_pow] returns [pow(v, 2.0)]
    and raises [OverflowError] when the result of a finite operand is out of
    range, where [v * v] would silently give [inf].  The square of a binary64
    number is taken as correctly rounded. *)
Definition py_float_pow2 (v : float) : result float :=
  let r := (v * v)%float in
  if is_finite v && is_infinity r then Raise OverflowError else Ok r.

(** [a > b] on floats. *)
Definition py_gt (a b : float) : bool := (b <? a)%float.
Definition py_lt (a b : float) : bool := (a <? b)%float.

(** ** gesture_classifier.py *)

Inductive GestureType : Type :=
| NONE
| POINT
| OPEN_PALM
| FIST
| THUMBS_UP
| PEACE
| OK_SIGN
| PINCH.

#[global] Instance GestureType_eq_dec : EqDecision GestureType.
Proof. solve_decision. Defined.

Definition GestureType_to_nat (g : GestureType) : nat :=
  match g with
  | NONE => 0 | POINT => 1 | OPEN_PALM => 2 | FIST => 3
  | THUMBS_UP => 4 | PEACE => 5 | OK_SIGN => 6 | PINCH => 7
  end.

Definition GestureType_of_nat (n : nat) : option GestureType :=
  match n with
  | 0 => Some NONE | 1 => Some POINT | 2 => Some OPEN_PALM | 3 => Some FIST
  | 4 => Some THUMBS_UP | 5 => Some PEACE | 6 => Some OK_SIGN | 7 => Some PINCH
  | _ => None
  end.

#[global] Instance GestureType_countable : Countable GestureType.
Proof.
  apply (inj_countable GestureType_to_nat GestureType_of_nat).
  intros []; reflexivity.
Defined.

(** A landmark is the dict [{'x': .., 'y': .., 'z': ..}] that
    [HandTracker.detect_hands] builds for every point of a hand. *)
Record Landmark : Type := mkLandmark {
  x : float;
  y : float;
  z : float
}.

(** The dict returned by [classify_gesture]. *)
Record GestureResult : Type := mkGestureResult {
  gesture : GestureType;
  confidence : float;
  description : string
}.

Record GestureClassifier : Type := mkGestureClassifier {
  confidence_threshold : float
}.

(** [GestureClassifier.__init__], with its default argument. *)
Definition GestureClassifier_init (confidence_threshold : option float) : GestureClassifier :=
  {| confidence_threshold := default 0.7%float confidence_threshold |}.

(** The expression
    [np.sqrt((p['x'] - q['x'])**2 + (p['y'] - q['y'])**2)]
    of [_is_thumb_extended], [_is_ok_sign] and [_is_pinch_gesture]. *)
Definition distance_2d (p q : Landmark) : result float :=
  dx2 ← py_float_pow2 (x p - x q)%float;
  dy2 ← py_float_pow2 (y p - y q)%float;
  Ok (sqrt (dx2 + dy2))%float.

Definition _is_thumb_extended (self : GestureClassifier)
    (landmarks : list Landmark) (indices : list nat) : result bool :=
  thumb_tip ← (i ← py_getitem indices 3; py_getitem landmarks i);
  thumb_mcp ← (i ← py_getitem indices 0; py_getitem landmarks i);
  wrist ← py_getitem landmarks 0;
  tip_to_wrist ← distance_2d thumb_tip wrist;
  mcp_to_wrist ← distance_2d thumb_mcp wrist;
  Ok (py_gt tip_to_wrist (mcp_to_wrist * 1.2)%float).

(** The dict literal [fingers] of [_get_finger_states], in its order. *)
Definition fingers : list (string * list nat) :=
  [ ("thumb", [1; 2; 3; 4]);
    ("index", [5; 6; 7; 8]);
    ("middle", [9; 10; 11; 12]);
    ("ring", [13; 14; 15; 16]);
    ("pinky", [17; 18; 19; 20]) ].

(** One iteration of the loop of [_get_finger_states]. *)
Definition finger_state_step (self : GestureClassifier) (landmarks : list Landmark)
    (finger_states : gmap string bool) (item : string * list nat)
    : result (gmap string bool) :=
  let '(finger_name, indices) := item in
  if String.eqb finger_name "thumb" then
    v ← _is_thumb_extended self landmarks indices;
    Ok (<[finger_name := v]> finger_states)
  else
    tip ← (i ← py_getitem indices 3; py_getitem landmarks i);
    let tip_y := y tip in
    mcp ← (i ← py_getitem indices 0; py_getitem landmarks i);
    let mcp_y := y mcp in
    Ok (<[finger_name := py_lt tip_y mcp_y]> finger_states).

(** A [for] loop whose body may raise. *)
Fixpoint py_for {A S} (items : list A) (body : S → A → result S) (s : S) : result S :=
  match items with
  | [] => Ok s
  | a :: items' => s' ← body s a; py_for items' body s'
  end.

Definition _get_finger_states (self : GestureClassifier)
    (landmarks : list Landmark) : result (gmap string bool) :=
  py_for fingers (finger_state_step self landmarks) ∅.

Definition _is_pointing_gesture (self : GestureClassifier)
    (finger_states : gmap string bool) : result bool :=
  py_and (py_dict_getitem finger_states "index")
    (py_and (py_not (py_dict_getitem finger_states "middle"))
      (py_and (py_not (py_dict_getitem finger_states "ring"))
        (py_not (py_dict_getitem finger_states "pinky")))).

Definition _is_open_palm (self : GestureClassifier)
    (finger_states : gmap string bool) : result bool :=
  Ok (py_all (py_dict_values finger_states)).

Definition _is_fist (self : GestureClassifier)
    (finger_states : gmap string bool) : result bool :=
  Ok (negb (py_any (py_dict_values finger_states))).

Definition _is_thumbs_up (self : GestureClassifier)
    (finger_states : gmap string bool) : result bool :=
  py_and (py_dict_getitem finger_states "thumb")
    (py_and (py_not (py_dict_getitem finger_states "index"))
      (py_and (py_not (py_dict_getitem finger_states "middle"))
        (py_and (py_not (py_dict_getitem finger_states "ring"))
          (py_not (py_dict_getitem finger_states "pinky"))))).

Definition _is_peace_sign (self : GestureClassifier)
    (finger_states : gmap string bool) : result bool :=
  py_and (py_dict_getitem finger_states "index")
    (py_and (py_dict_getitem finger_states "middle")
      (py_and (py_not (py_dict_getitem finger_states "ring"))
        (py_not (py_dict_getitem finger_states "pinky")))).

Definition _is_ok_sign (self : GestureClassifier)
    (landmarks : list Landmark) (finger_states : gmap string bool) : result bool :=
  bent ← py_or (py_not (py_dict_getitem finger_states "middle"))
          (py_or (py_not (py_dict_getitem finger_states "ring"))
             (py_not (py_dict_getitem finger_states "pinky")));
  if bent : bool then Ok false
  else
    thumb_tip ← py_getitem landmarks 4;
    index_tip ← py_getitem landmarks 8;
    distance ← distance_2d thumb_tip index_tip;
    Ok (py_lt distance 0.05%float).

Definition _is_pinch_gesture (self : GestureClassifier)
    (landmarks : list Landmark) : result bool :=
  thumb_tip ← py_getitem landmarks 4;
  index_tip ← py_getitem landmarks 8;
  distance ← distance_2d thumb_tip index_tip;
  Ok (py_lt distance 0.03%float).

Definition _analyze_gesture_pattern (self : GestureClassifier)
    (landmarks : list Landmark) (finger_states : gmap string bool)
    : result GestureResult :=
  let extended_fingers := py_sum (py_dict_values finger_states) in
  c ← _is_pointing_gesture self finger_states;
  if c : bool then
    Ok {| gesture := POINT; confidence := 0.9%float;
          description := "Pointing gesture detected" |}
  else c ← _is_open_palm self finger_states;
  if c : bool then
    Ok {| gesture := OPEN_PALM; confidence := 0.9%float;
          description := "Open palm gesture detected" |}
  else c ← _is_fist self finger_states;
  if c : bool then
    Ok {| gesture := FIST; confidence := 0.9%float;
          description := "Fist gesture detected" |}
  else c ← _is_thumbs_up self finger_states;
  if c : bool then
    Ok {| gesture := THUMBS_UP; confidence := 0.8%float;
          description := "Thumbs up gesture detected" |}
  else c ← _is_peace_sign self finger_states;
  if c : bool then
    Ok {| gesture := PEACE; confidence := 0.8%float;
          description := "Peace sign detected" |}
  else c ← _is_ok_sign self landmarks finger_states;
  if c : bool then
    Ok {| gesture := OK_SIGN; confidence := 0.8%float;
          description := "OK sign detected" |}
  else c ← _is_pinch_gesture self landmarks;
  if c : bool then
    Ok {| gesture := PINCH; confidence := 0.8%float;
          description := "Pinch gesture detected" |}
  else
    Ok {| gesture := NONE; confidence := 0.0%float;
          description := "No recognized gesture" |}.

Definition classify_gesture (self : GestureClassifier)
    (landmarks : list Landmark) : result GestureResult :=
  if (length landmarks <? 21)%nat then
    Ok {| gesture := NONE; confidence := 0.0%float;
          description := "No valid hand detected" |}
  else
    finger_states ← _get_finger_states self landmarks;
    gesture_result ← _analyze_gesture_pattern self landmarks finger_states;
    Ok gesture_result.

(** *** Definitions used in the statements *)

#[global] Instance Landmark_inhabited : Inhabited Landmark :=
  populate (mkLandmark 0 0 0).

(** The finger-state dict, as the loop of [_get_finger_states] fills it. *)
Definition finger_states_of (thumb index middle ring pinky : bool) : gmap string bool :=
  <["pinky" := pinky]> (<["ring" := ring]> (<["middle" := middle]>
    (<["index" := index]> (<["thumb" := thumb]> ∅)))).

(** The if/elif chain of [_analyze_gesture_pattern] read as a decision table
    over the five finger states and the thumb-tip to index-tip distance. *)
Definition decide_gesture (t i m r p : bool) (distance : result float)
    : result GestureResult :=
  if i && negb m && negb r && negb p then
    Ok (mkGestureResult POINT 0.9 "Pointing gesture detected")
  else if t && i && m && r && p then
    Ok (mkGestureResult OPEN_PALM 0.9 "Open palm gesture detected")
  else if negb (t || i || m || r || p) then
    Ok (mkGestureResult FIST 0.9 "Fist gesture detected")
  else if t && negb i && negb m && negb r && negb p then
    Ok (mkGestureResult THUMBS_UP 0.8 "Thumbs up gesture detected")
  else if i && m && negb r && negb p then
    Ok (mkGestureResult PEACE 0.8 "Peace sign detected")
  else
    d ← distance;
    if m && r && p && py_lt d 0.05 then
      Ok (mkGestureResult OK_SIGN 0.8 "OK sign detected")
    else if py_lt d 0.03 then
      Ok (mkGestureResult PINCH 0.8 "Pinch gesture detected")
    else
      Ok (mkGestureResult NONE 0 "No recognized gesture").

(** The eight literal results of the chain. *)
Definition gesture_results : list GestureResult :=
  [ mkGestureResult POINT 0.9 "Pointing gesture detected";
    mkGestureResult OPEN_PALM 0.9 "Open palm gesture detected";
    mkGestureResult FIST 0.9 "Fist gesture detected";
    mkGestureResult THUMBS_UP 0.8 "Thumbs up gesture detected";
    mkGestureResult PEACE 0.8 "Peace sign detected";
    mkGestureResult OK_SIGN 0.8 "OK sign detected";
    mkGestureResult PINCH 0.8 "Pinch gesture detected";
    mkGestureResult NONE 0 "No recognized gesture" ].

(** [f] is a zero or a finite number of magnitude below [2 ^ k]. *)
Definition SF_below (k : Z) (f : spec_float) : Prop :=
  match f with
  | S754_zero _ => True
  | S754_finite _ m e => (Zpos (digits2_pos m) + e ≤ k)%Z
  | _ => False
  end.

(** A coordinate of magnitude at most [2 ^ 128]: every normalized coordinate
    and every single-precision number, which is what the detector produces,
    is one. *)
Definition in_range (c : float) : bool := (abs c <=? 0x1p128)%float.

Definition landmark_in_range (l : Landmark) : bool :=
  in_range (x l) && in_range (y l).

(** The confidence that the specification attaches to each label. *)
Definition spec_confidence (g : GestureType) : float :=
  match g with
  | POINT | OPEN_PALM | FIST => 0.9
  | THUMBS_UP | PEACE | OK_SIGN | PINCH => 0.8
  | NONE => 0.0
  end.

(** *** Sample skeletons *)

Definition point_2d (a b : float) : Landmark := mkLandmark a b 0.

(** Twenty-one landmarks at the centre of the image. *)
Definition flat_hand : list Landmark := replicate 21 (point_2d 0.5 0.5).

(** The mock landmarks of [test_basic.py]: index tip raised, the tips of
    middle, ring and pinky lowered. *)
Definition pointing_hand : list Landmark :=
  <[20 := point_2d 0.5 0.6]> (<[16 := point_2d 0.5 0.6]>
    (<[12 := point_2d 0.5 0.6]> (<[8 := point_2d 0.5 0.3]> flat_hand))).

(** Wrist at the bottom, thumb stretched, middle, ring and pinky raised, and
    the index tip (landmark 8) curled below its base (landmark 5) to meet the
    thumb tip (landmark 4). *)
Definition ok_hand : list Landmark :=
  <[0 := point_2d 0.5 0.9]> (<[1 := point_2d 0.45 0.8]>
    (<[4 := point_2d 0.4 0.5]>
    (<[5 := point_2d 0.45 0.45]> (<[8 := point_2d 0.41 0.51]>
    (<[9 := point_2d 0.5 0.5]> (<[12 := point_2d 0.5 0.2]>
    (<[13 := point_2d 0.55 0.5]> (<[16 := point_2d 0.55 0.25]>
    (<[17 := point_2d 0.6 0.55]> (<[20 := point_2d 0.6 0.35]> flat_hand)))))))))).

(** The same hand with the base of the index lowered to [y = 0.6], so that
    the index too counts as extended while its tip still touches the thumb. *)
Definition open_pinch_hand : list Landmark :=
  <[5 := point_2d 0.45 0.6]> ok_hand.

(** A skeleton whose wrist lies far outside the image. *)
Definition far_wrist_hand : list Landmark :=
  <[0 := point_2d 1e200 0.5]> flat_hand.

(** [pointing_hand] with other depths and a twenty-second landmark. *)
Definition pointing_hand_deep : list Landmark :=
  map (λ l, mkLandmark (x l) (y l) (-0.25)) pointing_hand ++ [point_2d 0.1 0.1].

(** ** hand_tracker.py and ar_interface.py

    The session owns a camera handle of OpenCV and, through its
    [HandTracker], a MediaPipe hands solution.  Both are collaborators whose
    code is not part of the repository: their types and operations are
    parameters.  A handle is held by one session only, so the state of the
    object behind it is kept in the field that holds it. *)

(** An entry of the list returned by [HandTracker.detect_hands]; its ['raw']
    MediaPipe object is not used by the session and is left out. *)
Record Hand : Type := mkHand {
  landmarks : list Landmark
}.

(** The dict [gesture_info] of [process_frame]. *)
Record GestureInfo : Type := mkGestureInfo {
  info_gesture : GestureType;
  info_confidence : float;
  info_description : string;
  hand_count : nat
}.

(** [gesture_info.update(gesture_result)]: the three keys of the result
    overwrite those of [gesture_info], ['hand_count'] stays. *)
Definition update (gesture_info : GestureInfo) (gesture_result : GestureResult)
    : GestureInfo :=
  {| info_gesture := gesture gesture_result;
     info_confidence := confidence gesture_result;
     info_description := description gesture_result;
     hand_count := hand_count gesture_info |}.

Section Session.

Context {Frame VideoCapture Hands Callback : Type}.

(** [Hands.process] with the colour conversions, the drawing and the
    extraction of the coordinates that [detect_hands] wraps around it: the
    annotated image, the hands found, and the solution object afterwards. *)
Variable Hands_process : Hands → Frame → result ((Frame * list Hand) * Hands).
(** [Hands.close], [VideoCapture.release] and [cv2.destroyAllWindows]. *)
Variable Hands_close : Hands → result Hands.
Variable VideoCapture_release : VideoCapture → result VideoCapture.
Variable cv2_destroyAllWindows : result ().
(** The drawing calls of [_add_gesture_overlay], on a copy of the frame. *)
Variable draw_overlay : Frame → GestureInfo → Frame.
(** [gesture_classifier.classify_gesture].  The session is stated for any
    classifier; the repository's one is [classify_gesture]. *)
Variable classify : GestureClassifier → list Landmark → result GestureResult.

Record HandTracker : Type := mkHandTracker {
  hands : option Hands
}.

Definition detect_hands (self : HandTracker) (image : Frame)
    : result ((Frame * list Hand) * HandTracker) :=
  h ← py_attr (hands self);
  '(detected, h') ← Hands_process h image;
  Ok (detected, {| hands := Some h' |}).


Record ARInterface : Type := mkARInterface {
  camera_index : Z;
  frame_width : Z;
  frame_height : Z;
  hand_tracker : option HandTracker;
  gesture_classifier : GestureClassifier;
  cap : option VideoCapture;
  is_running : bool;
  gesture_callbacks : gmap GestureType Callback;
  current_gesture : GestureType;
  gesture_confidence : float;
  show_landmarks : bool;
  show_gesture_info : bool
}.

(** [ARInterface.__init__], given the hands solution that [HandTracker()]
    creates. *)
Definition ARInterface_init (new_hands : Hands)
    (camera_index frame_width frame_height : Z) : ARInterface :=
  {| camera_index := camera_index;
     frame_width := frame_width;
     frame_height := frame_height;
     hand_tracker := Some {| hands := Some new_hands |};
     gesture_classifier := GestureClassifier_init None;
     cap := None;
     is_running := false;
     gesture_callbacks := ∅;
     current_gesture := NONE;
     gesture_confidence := 0;
     show_landmarks := true;
     show_gesture_info := true |}.

(** Assignments to the attributes of [self]. *)
Definition set_hand_tracker (v : option HandTracker) (self : ARInterface) :=
  mkARInterface (camera_index self) (frame_width self) (frame_height self)
    v (gesture_classifier self) (cap self) (is_running self)
    (gesture_callbacks self) (current_gesture self) (gesture_confidence self)
    (show_landmarks self) (show_gesture_info self).
Definition set_cap (v : option VideoCapture) (self : ARInterface) :=
  mkARInterface (camera_index self) (frame_width self) (frame_height self)
    (hand_tracker self) (gesture_classifier self) v (is_running self)
    (gesture_callbacks self) (current_gesture self) (gesture_confidence self)
    (show_landmarks self) (show_gesture_info self).
Definition set_is_running (v : bool) (self : ARInterface) :=
  mkARInterface (camera_index self) (frame_width self) (frame_height self)
    (hand_tracker self) (gesture_classifier self) (cap self) v
    (gesture_callbacks self) (current_gesture self) (gesture_confidence self)
    (show_landmarks self) (show_gesture_info self).
Definition set_gesture_callbacks (v : gmap GestureType Callback) (self : ARInterface) :=
  mkARInterface (camera_index self) (frame_width self) (frame_height self)
    (hand_tracker self) (gesture_classifier self) (cap self) (is_running self)
    v (current_gesture self) (gesture_confidence self)
    (show_landmarks self) (show_gesture_info self).
Definition set_current_gesture (v : GestureType) (self : ARInterface) :=
  mkARInterface (camera_index self) (frame_width self) (frame_height self)
    (hand_tracker self) (gesture_classifier self) (cap self) (is_running self)
    (gesture_callbacks self) v (gesture_confidence self)
    (show_landmarks self) (show_gesture_info self).
Definition set_gesture_confidence (v : float) (self : ARInterface) :=
  mkARInterface (camera_index self) (frame_width self) (frame_height self)
    (hand_tracker self) (gesture_classifier self) (cap self) (is_running self)
    (gesture_callbacks self) (current_gesture self) v
    (show_landmarks self) (show_gesture_info self).

Definition stop_camera (self : ARInterface) : result ARInterface :=
  let self := set_is_running false self in
  self ← match cap self with
         | Some c => c' ← VideoCapture_release c; Ok (set_cap (Some c') self)
         | None => Ok self
         end;
  _ ← cv2_destroyAllWindows;
  Ok self.

Definition register_gesture_callback (self : ARInterface)
    (gesture_type : GestureType) (callback : Callback) : ARInterface :=
  set_gesture_callbacks (<[gesture_type := callback]> (gesture_callbacks self)) self.

(** [process_frame] returns the state of the session after the call, the
    callbacks it has called with their argument, in order, and the pair
    that the Python method returns. *)
Definition process_frame (self : ARInterface) (frame : Frame)
    : result (ARInterface * list (Callback * GestureInfo) * (Frame * GestureInfo)) :=
  tracker ← py_attr (hand_tracker self);
  '((annotated_frame, hand_landmarks_list), tracker) ← detect_hands tracker frame;
  let self := set_hand_tracker (Some tracker) self in
  let gesture_info :=
    {| info_gesture := NONE;
       info_confidence := 0.0;
       info_description := "No hands detected";
       hand_count := length hand_landmarks_list |} in
  '(self, called, gesture_info) ←
    match hand_landmarks_list with
    | hand :: _ =>
        let landmarks := landmarks hand in
        gesture_result ← classify (gesture_classifier self) landmarks;
        let gesture_info := update gesture_info gesture_result in
        let self := set_current_gesture (gesture gesture_result) self in
        let self := set_gesture_confidence (confidence gesture_result) self in
        if py_gt (gesture_confidence self) 0.7
           && py_in (current_gesture self) (gesture_callbacks self)
        then
          callback ← py_dict_getitem (gesture_callbacks self) (current_gesture self);
          Ok (self, [(callback, gesture_info)], gesture_info)
        else Ok (self, [], gesture_info)
    | [] => Ok (self, [], gesture_info)
    end;
  let annotated_frame :=
    if show_gesture_info self then draw_overlay annotated_frame gesture_info
    else annotated_frame in
  Ok (self, called, (annotated_frame, gesture_info)).

Definition get_current_gesture (self : ARInterface) : GestureType * float :=
  (current_gesture self, gesture_confidence self).


End Session.

(** The successive calls of [process_frame] on a list of frames, as the
    loops of [run_realtime] and [capture_gesture_data] make them: the final
    state, the callbacks called and the pairs returned, in order. *)
Fixpoint process_frames {Frame VideoCapture Hands Callback : Type}
    (Hands_process : Hands → Frame → result ((Frame * list Hand) * Hands))
    (draw_overlay : Frame → GestureInfo → Frame)
    (classify : GestureClassifier → list Landmark → result GestureResult)
    (self : @ARInterface VideoCapture Hands Callback) (frames : list Frame)
    : result (@ARInterface VideoCapture Hands Callback
              * list (Callback * GestureInfo) * list (Frame * GestureInfo)) :=
  match frames with
  | [] => Ok (self, [], [])
  | frame :: frames' =>
      '(self, called, out) ← process_frame Hands_process draw_overlay classify self frame;
      '(self, called', outs) ← process_frames Hands_process draw_overlay classify self frames';
      Ok (self, called ++ called', out :: outs)
  end.

(** *** Sample collaborators

    A frame is the list of hands that the detector will find in it; a handle
    is a flag, set once the object behind it has been released or closed; a
    callback is its name. *)

Definition sample_process (h : bool) (frame : list Hand)
    : result ((list Hand * list Hand) * bool) :=
  Ok ((frame, frame), h).

Definition sample_overlay (frame : list Hand) (gesture_info : GestureInfo)
    : list Hand := frame.

Definition sample_release (released : bool) : result bool := Ok true.



(** [ARInterface()], and the same session with a callback for POINT. *)
Definition sample_session : @ARInterface bool bool string :=
  ARInterface_init false 0 640 480.

Definition sample_session_on_point : @ARInterface bool bool string :=
  register_gesture_callback sample_session POINT "on_point".

(** That session once a frame has shown [pointing_hand]. *)
Definition sample_session_pointing : @ARInterface bool bool string :=
  set_gesture_confidence 0.9 (set_current_gesture POINT sample_session_on_point).

(** ** The helpers on landmarks, the descriptions, the camera

    What follows embeds [get_gesture_description], the two helpers of
    [HandTracker] on landmarks, [start_camera] and [set_display_options]. *)

(** A dict literal: later items overwrite earlier ones of the same key. *)
Definition py_dict_literal `{Countable K} {A} (items : list (K * A)) : gmap K A :=
  fold_left (λ d item, <[item.1 := item.2]> d) items ∅.

(** [d.get(k, default)]. *)
Definition py_dict_get `{Countable K} {A} (d : gmap K A) (k : K) (dflt : A) : A :=
  default dflt (d !! k).

Definition get_gesture_description (self : GestureClassifier)
    (gesture_type : GestureType) : string :=
  let descriptions := py_dict_literal
    [ (NONE, "No gesture detected");
      (POINT, "Pointing - Use to select or indicate direction");
      (OPEN_PALM, "Open palm - Stop or show command");
      (FIST, "Fist - Grab or power gesture");
      (THUMBS_UP, "Thumbs up - Approval or confirmation");
      (PEACE, "Peace sign - Victory or two items");
      (OK_SIGN, "OK sign - Confirmation or perfect");
      (PINCH, "Pinch - Precise selection or zoom") ] in
  py_dict_get descriptions gesture_type "Unknown gesture".

(** ** hand_tracker.py, the helpers on landmarks *)

(** The dict literal [finger_tips] of [get_finger_positions], in its order. *)
Definition finger_tips : list (string * nat) :=
  [ ("thumb", 4); ("index", 8); ("middle", 12); ("ring", 16); ("pinky", 20) ].

Definition get_finger_positions {Hands : Type} (self : @HandTracker Hands)
    (landmarks : list Landmark) : result (gmap string Landmark) :=
  if (length landmarks <? 21)%nat then Ok ∅
  else
    py_for finger_tips
      (λ finger_positions '(finger, tip_idx),
         position ← py_getitem landmarks tip_idx;
         Ok (<[finger := position]> finger_positions))
      ∅.

(** The nested function [euclidean_distance] of [calculate_distances]. *)
Definition euclidean_distance (p1 p2 : Landmark) : result float :=
  dx2 ← py_float_pow2 (x p1 - x p2)%float;
  dy2 ← py_float_pow2 (y p1 - y p2)%float;
  Ok (sqrt (dx2 + dy2))%float.

Definition calculate_distances {Hands : Type} (self : @HandTracker Hands)
    (landmarks : list Landmark) : result (gmap string float) :=
  if (length landmarks <? 21)%nat then Ok ∅
  else
    let thumb_tip := 4 in
    let index_tip := 8 in
    let middle_tip := 12 in
    let ring_tip := 16 in
    let pinky_tip := 20 in
    let wrist := 0 in
    thumb_index ← (p1 ← py_getitem landmarks thumb_tip;
                   p2 ← py_getitem landmarks index_tip;
                   euclidean_distance p1 p2);
    thumb_middle ← (p1 ← py_getitem landmarks thumb_tip;
                    p2 ← py_getitem landmarks middle_tip;
                    euclidean_distance p1 p2);
    index_middle ← (p1 ← py_getitem landmarks index_tip;
                    p2 ← py_getitem landmarks middle_tip;
                    euclidean_distance p1 p2);
    thumb_wrist ← (p1 ← py_getitem landmarks thumb_tip;
                   p2 ← py_getitem landmarks wrist;
                   euclidean_distance p1 p2);
    index_wrist ← (p1 ← py_getitem landmarks index_tip;
                   p2 ← py_getitem landmarks wrist;
                   euclidean_distance p1 p2);
    let distances := py_dict_literal
      [ ("thumb_index", thumb_index);
        ("thumb_middle", thumb_middle);
        ("index_middle", index_middle);
        ("thumb_wrist", thumb_wrist);
        ("index_wrist", index_wrist) ] in
    Ok distances.

(** A hand with only the thumb stretched away from the wrist, and a hand
    with index and middle raised. *)
Definition thumbs_up_hand : list Landmark :=
  <[0 := point_2d 0.5 0.9]> (<[1 := point_2d 0.5 0.8]> flat_hand).

Definition peace_hand : list Landmark :=
  <[8 := point_2d 0.5 0.3]> (<[12 := point_2d 0.5 0.3]> flat_hand).

(** Only the middle finger raised, the tips of thumb and index together. *)
Definition pinch_hand : list Landmark :=
  <[12 := point_2d 0.5 0.3]> flat_hand.

(** ** ar_interface.py, the camera and the display options *)

(** [cv2.CAP_PROP_FRAME_WIDTH] and [cv2.CAP_PROP_FRAME_HEIGHT]. *)
Definition CAP_PROP_FRAME_WIDTH : Z := 3.
Definition CAP_PROP_FRAME_HEIGHT : Z := 4.

Section Camera.

Context {VideoCapture Hands Callback : Type}.

(** [cv2.VideoCapture(index)]. *)
Variable cv2_VideoCapture : Z → result VideoCapture.
(** [VideoCapture.set(prop, value)]: what the call returns or raises, and the
    capture after it.  [start_camera] catches what it raises, so the capture
    is followed in both cases. *)
Variable VideoCapture_set : VideoCapture → Z → Z → result bool * VideoCapture.
(** [VideoCapture.isOpened()]. *)
Variable VideoCapture_isOpened : VideoCapture → result bool.

(** [start_camera]: the session after the call and the boolean returned.
    Every exception of the body is caught by [except Exception]; the message
    printed there is not part of the model. *)
Definition start_camera (self : @ARInterface VideoCapture Hands Callback)
    : @ARInterface VideoCapture Hands Callback * bool :=
  match cv2_VideoCapture (camera_index self) with
  | Raise _ => (self, false)
  | Ok c =>
      let self := set_cap (Some c) self in
      let '(r, c) := VideoCapture_set c CAP_PROP_FRAME_WIDTH (frame_width self) in
      let self := set_cap (Some c) self in
      match r with
      | Raise _ => (self, false)
      | Ok _ =>
          let '(r, c) := VideoCapture_set c CAP_PROP_FRAME_HEIGHT (frame_height self) in
          let self := set_cap (Some c) self in
          match r with
          | Raise _ => (self, false)
          | Ok _ =>
              match VideoCapture_isOpened c with
              | Raise _ => (self, false)
              | Ok opened =>
                  if negb opened then (self, false)
                  else (set_is_running true self, true)
              end
          end
      end
  end.

End Camera.

(** [set_display_options]; an argument left out is [None]. *)
Definition set_display_options {VideoCapture Hands Callback : Type}
    (self : @ARInterface VideoCapture Hands Callback)
    (show_landmarks show_gesture_info : option bool)
    : @ARInterface VideoCapture Hands Callback :=
  let show_landmarks := default true show_landmarks in
  let show_gesture_info := default true show_gesture_info in
  mkARInterface (camera_index self) (frame_width self) (frame_height self)
    (hand_tracker self) (gesture_classifier self) (cap self) (is_running self)
    (gesture_callbacks self) (current_gesture self) (gesture_confidence self)
    show_landmarks show_gesture_info.

(** A camera that opens whatever its index, accepts every property, and is
    open until released. *)
Definition sample_VideoCapture (index : Z) : result bool := Ok false.

Definition sample_set (released : bool) (prop value : Z) : result bool * bool :=
  (Ok true, released).

Definition sample_isOpened (released : bool) : result bool := Ok (negb released).

(** A camera that refuses the frame size asked for. *)
Definition refusing_set (released : bool) (prop value : Z) : result bool * bool :=
  (Ok false, released).

(** ** Properties of the error monad and of the Python operations *)

Lemma bind_Ok {A B} (a : A) (f : A → result B) : (Ok a ≫= f) = f a.
Proof. reflexivity. Qed.

Lemma bind_Raise {A B} (e : exn) (f : A → result B) : (Raise e ≫= f) = Raise e.
Proof. reflexivity. Qed.

Lemma py_getitem_lt {A} `{Inhabited A} (l : list A) (i : nat) :
  i < length l → py_getitem l i = Ok (l !!! i).
Proof.
  intros Hi. unfold py_getitem.
  by rewrite (list_lookup_lookup_total_lt l i Hi).
Qed.

Lemma _get_finger_states_eq self lm :
  21 ≤ length lm →
  _get_finger_states self lm =
    (tip_to_wrist ← distance_2d (lm !!! 4) (lm !!! 0);
     mcp_to_wrist ← distance_2d (lm !!! 1) (lm !!! 0);
     Ok (finger_states_of
           (py_gt tip_to_wrist (mcp_to_wrist * 1.2)%float)
           (py_lt (y (lm !!! 8)) (y (lm !!! 5)))
           (py_lt (y (lm !!! 12)) (y (lm !!! 9)))
           (py_lt (y (lm !!! 16)) (y (lm !!! 13)))
           (py_lt (y (lm !!! 20)) (y (lm !!! 17))))).
Proof.
  intros Hlen.
  unfold _get_finger_states, fingers, py_for, finger_state_step, _is_thumb_extended.
  cbn. rewrite !py_getitem_lt by lia. cbn.
  destruct (distance_2d (lm !!! 4) (lm !!! 0)); [cbn | reflexivity].
  destruct (distance_2d (lm !!! 1) (lm !!! 0)); reflexivity.
Qed.

Lemma finger_states_of_lookup t i m r p :
  finger_states_of t i m r p !! "thumb" = Some t ∧
  finger_states_of t i m r p !! "index" = Some i ∧
  finger_states_of t i m r p !! "middle" = Some m ∧
  finger_states_of t i m r p !! "ring" = Some r ∧
  finger_states_of t i m r p !! "pinky" = Some p.
Proof. unfold finger_states_of. repeat split; by simplify_map_eq. Qed.

Lemma _is_pointing_gesture_of self t i m r p :
  _is_pointing_gesture self (finger_states_of t i m r p)
  = Ok (i && negb m && negb r && negb p).
Proof. destruct t, i, m, r, p; reflexivity. Qed.

Lemma _is_open_palm_of self t i m r p :
  _is_open_palm self (finger_states_of t i m r p) = Ok (t && i && m && r && p).
Proof. destruct t, i, m, r, p; reflexivity. Qed.

Lemma _is_fist_of self t i m r p :
  _is_fist self (finger_states_of t i m r p) = Ok (negb (t || i || m || r || p)).
Proof. destruct t, i, m, r, p; reflexivity. Qed.

Lemma _is_thumbs_up_of self t i m r p :
  _is_thumbs_up self (finger_states_of t i m r p)
  = Ok (t && negb i && negb m && negb r && negb p).
Proof. destruct t, i, m, r, p; reflexivity. Qed.

Lemma _is_peace_sign_of self t i m r p :
  _is_peace_sign self (finger_states_of t i m r p)
  = Ok (i && m && negb r && negb p).
Proof. destruct t, i, m, r, p; reflexivity. Qed.

Lemma _is_ok_sign_of self lm t i m r p :
  9 ≤ length lm →
  _is_ok_sign self lm (finger_states_of t i m r p)
  = if m && r && p
    then d ← distance_2d (lm !!! 4) (lm !!! 8); Ok (py_lt d 0.05%float)
    else Ok false.
Proof.
  intros Hlen. unfold _is_ok_sign.
  rewrite !py_getitem_lt by lia.
  destruct t, i, m, r, p; reflexivity.
Qed.

Lemma _is_pinch_gesture_eq self lm :
  9 ≤ length lm →
  _is_pinch_gesture self lm
  = (d ← distance_2d (lm !!! 4) (lm !!! 8); Ok (py_lt d 0.03%float)).
Proof.
  intros Hlen. unfold _is_pinch_gesture.
  by rewrite !py_getitem_lt by lia.
Qed.

Lemma _analyze_gesture_pattern_of self lm t i m r p :
  9 ≤ length lm →
  _analyze_gesture_pattern self lm (finger_states_of t i m r p)
  = decide_gesture t i m r p (distance_2d (lm !!! 4) (lm !!! 8)).
Proof.
  intros Hlen. unfold _analyze_gesture_pattern, decide_gesture.
  rewrite _is_pointing_gesture_of, _is_open_palm_of, _is_fist_of,
    _is_thumbs_up_of, _is_peace_sign_of, _is_ok_sign_of,
    _is_pinch_gesture_eq by done.
  destruct t, i, m, r, p; cbn; try reflexivity;
    destruct (distance_2d (lm !!! 4) (lm !!! 8)) as [d|]; cbn; try reflexivity;
    destruct (py_lt d 0.05); cbn; reflexivity.
Qed.

Lemma classify_gesture_eq self lm :
  21 ≤ length lm →
  classify_gesture self lm =
    (tip_to_wrist ← distance_2d (lm !!! 4) (lm !!! 0);
     mcp_to_wrist ← distance_2d (lm !!! 1) (lm !!! 0);
     decide_gesture
       (py_gt tip_to_wrist (mcp_to_wrist * 1.2)%float)
       (py_lt (y (lm !!! 8)) (y (lm !!! 5)))
       (py_lt (y (lm !!! 12)) (y (lm !!! 9)))
       (py_lt (y (lm !!! 16)) (y (lm !!! 13)))
       (py_lt (y (lm !!! 20)) (y (lm !!! 17)))
       (distance_2d (lm !!! 4) (lm !!! 8))).
Proof.
  intros Hlen. unfold classify_gesture.
  destruct (Nat.ltb_spec (length lm) 21) as [|_]; [lia|].
  rewrite _get_finger_states_eq by done.
  destruct (distance_2d (lm !!! 4) (lm !!! 0)); [cbn | reflexivity].
  destruct (distance_2d (lm !!! 1) (lm !!! 0)); [cbn | reflexivity].
  rewrite _analyze_gesture_pattern_of by lia.
  match goal with |- (?m ≫= _) = _ => destruct m; reflexivity end.
Qed.

(** ** Facts on binary64 comparisons *)




Lemma float_neq_by_eqb (a b : float) : (a =? b)%float = false → (a =? a)%float = true → a ≠ b.
Proof. intros Hab Haa ->. congruence. Qed.

Lemma confidence_09_nonzero : 0.9%float ≠ 0%float.
Proof. by apply float_neq_by_eqb. Qed.

Lemma confidence_08_nonzero : 0.8%float ≠ 0%float.
Proof. by apply float_neq_by_eqb. Qed.

(** ** The range of binary64 subtraction and multiplication

    The magnitude of a result is followed through the rounding of
    [SpecFloat]: a difference of numbers below [2 ^ k] is below
    [2 ^ (k + 2)], a product is below the product of the bounds doubled, and
    neither is an infinity while the bound stays in range. *)

Section Binary64Range.
Local Open Scope Z_scope.

Lemma digits2_pos_size p : digits2_pos p = Pos.size p.
Proof. induction p; simpl; congruence. Qed.

Lemma Zpos_lt_pow_digits p : Zpos p < 2 ^ Zpos (digits2_pos p).
Proof.
  rewrite digits2_pos_size.
  pose proof (Pos.size_gt p) as H.
  apply Pos2Z.pos_lt_pos in H. by rewrite Pos2Z.inj_pow in H.
Qed.

Lemma pow_digits_le_Zpos p : 2 ^ Zpos (digits2_pos p) ≤ 2 * Zpos p.
Proof.
  rewrite digits2_pos_size.
  pose proof (Pos.size_le p) as H.
  apply Pos2Z.pos_le_pos in H. by rewrite Pos2Z.inj_pow in H.
Qed.

Lemma Zdigits2_nonneg m : 0 ≤ Zdigits2 m.
Proof. destruct m; simpl; lia. Qed.

(** A number of magnitude below [2 ^ n] has at most [n] binary digits. *)
Lemma Zdigits2_le m n : 0 ≤ n → Z.abs m < 2 ^ n → Zdigits2 m ≤ n.
Proof.
  intros Hn Hm.
  assert (H : ∀ p, Zpos p < 2 ^ n → Zpos (digits2_pos p) ≤ n).
  { intros p Hp. pose proof (pow_digits_le_Zpos p) as Hle.
    destruct (Z.le_gt_cases (Zpos (digits2_pos p)) n) as [|Hgt]; [done|].
    assert (2 ^ (n + 1) ≤ 2 ^ Zpos (digits2_pos p))
      by (apply Z.pow_le_mono_r; lia).
    rewrite Z.pow_add_r in * by lia. lia. }
  destruct m; simpl in *; [lia | by apply H | by apply H].
Qed.

Lemma Zabs_lt_pow_digits m : Z.abs m < 2 ^ Zdigits2 m.
Proof. destruct m; simpl; [lia | apply Zpos_lt_pow_digits..]. Qed.

Lemma shr_1_digits r :
  0 ≤ shr_m r →
  0 ≤ shr_m (shr_1 r) ∧
  Zdigits2 (shr_m (shr_1 r)) = Z.max 0 (Zdigits2 (shr_m r) - 1).
Proof.
  destruct r as [m rr ss]. destruct m as [|[p|p|]|]; simpl; lia.
Qed.

Lemma iter_shr_1_digits p : ∀ r,
  0 ≤ shr_m r →
  0 ≤ shr_m (SpecFloat.iter_pos shr_1 p r) ∧
  Zdigits2 (shr_m (SpecFloat.iter_pos shr_1 p r)) = Z.max 0 (Zdigits2 (shr_m r) - Zpos p).
Proof.
  induction p as [p IH|p IH|]; intros r Hr; simpl.
  - destruct (shr_1_digits r Hr) as [H1 E1].
    destruct (IH _ H1) as [H2 E2]. destruct (IH _ H2) as [H3 E3].
    split; [done|]. rewrite E3, E2, E1. lia.
  - destruct (IH _ Hr) as [H2 E2]. destruct (IH _ H2) as [H3 E3].
    split; [done|]. rewrite E3, E2. lia.
  - by apply shr_1_digits.
Qed.

Lemma shr_m_record_of_loc m l : shr_m (shr_record_of_loc m l) = m.
Proof. by destruct l as [|[]]. Qed.

Lemma shr_fexp_spec m e l mrs e1 :
  0 ≤ m →
  shr_fexp prec emax m e l = (mrs, e1) →
  0 ≤ shr_m mrs ∧
  e1 = Z.max e (fexp prec emax (Zdigits2 m + e)) ∧
  Zdigits2 (shr_m mrs) + e1 ≤ Z.max (Zdigits2 m + e) e1.
Proof.
  intros Hm. unfold shr_fexp, shr.
  destruct (fexp prec emax (Zdigits2 m + e) - e) as [|p|p] eqn:En.
  - intros [= <- <-]. rewrite shr_m_record_of_loc. lia.
  - intros [= <- <-].
    destruct (iter_shr_1_digits p (shr_record_of_loc m l)) as [H E].
    { by rewrite shr_m_record_of_loc. }
    rewrite shr_m_record_of_loc in E. rewrite E. lia.
  - intros [= <- <-]. rewrite shr_m_record_of_loc. lia.
Qed.

Lemma round_nearest_even_digits m l :
  0 ≤ m →
  0 ≤ round_nearest_even m l ∧
  Zdigits2 (round_nearest_even m l) ≤ Zdigits2 m + 1.
Proof.
  intros Hm.
  assert (H1 : Zdigits2 (m + 1) ≤ Zdigits2 m + 1).
  { apply Zdigits2_le; [pose proof (Zdigits2_nonneg m); lia|].
    pose proof (Zabs_lt_pow_digits m).
    rewrite Z.pow_add_r by (pose proof (Zdigits2_nonneg m); lia). lia. }
  unfold round_nearest_even. destruct l as [|[]]; try destruct (Z.even m); lia.
Qed.

Lemma binary_round_aux_below s m e l k :
  0 ≤ m → Zdigits2 m + e ≤ k → e ≤ 971 → -1074 ≤ k → k ≤ 1022 →
  SF_below (k + 1) (binary_round_aux prec emax s m e l).
Proof.
  intros Hm Hk He Hk1 Hk2. unfold binary_round_aux.
  destruct (shr_fexp prec emax m e l) as [mrs' e'] eqn:E1.
  destruct (shr_fexp_spec _ _ _ _ _ Hm E1) as (Hm' & He' & Hd').
  destruct (round_nearest_even_digits (shr_m mrs') (loc_of_shr_record mrs') Hm')
    as [Hm1 Hd1].
  destruct (shr_fexp prec emax _ e' loc_Exact) as [mrs'' e''] eqn:E2.
  destruct (shr_fexp_spec _ _ _ _ _ Hm1 E2) as (Hm'' & He'' & Hd'').
  pose proof (Zdigits2_nonneg m).
  unfold fexp, emin, prec, emax in *.
  destruct (shr_m mrs'') as [|m''|m''] eqn:Em; [done| |lia].
  simpl in Hd''.
  destruct (Z.leb_spec e'' (1024 - 53)); simpl; lia.
Qed.

Lemma digits2_pos_iter_xO m d :
  Zpos (digits2_pos (Pos.iter xO m d)) = Zpos (digits2_pos m) + Zpos d.
Proof.
  induction d as [|d IH] using Pos.peano_ind.
  - simpl. lia.
  - rewrite Pos.iter_succ. simpl. lia.
Qed.

Lemma shl_align_spec mx ex ex' mz ez :
  shl_align mx ex ex' = (mz, ez) →
  Zpos (digits2_pos mz) + ez = Zpos (digits2_pos mx) + ex ∧ ez = Z.min ex ex'.
Proof.
  unfold shl_align. destruct (ex' - ex) as [|d|d] eqn:Ed; intros [= <- <-].
  - lia.
  - lia.
  - rewrite digits2_pos_iter_xO. lia.
Qed.

Lemma binary_round_below s m e k :
  Zpos (digits2_pos m) + e ≤ k → -1074 ≤ k → k ≤ 1022 →
  SF_below (k + 1) (binary_round prec emax s m e).
Proof.
  intros Hk Hk1 Hk2. unfold binary_round.
  destruct (shl_align m e _) as [mz ez] eqn:E.
  destruct (shl_align_spec _ _ _ _ _ E) as [Hd He].
  apply binary_round_aux_below; [done | simpl; lia | | done..].
  unfold fexp, emin, prec, emax in *. lia.
Qed.

Lemma binary_normalize_below m e k :
  Zdigits2 m + e ≤ k → -1074 ≤ k → k ≤ 1022 →
  SF_below (k + 1) (binary_normalize prec emax m e false).
Proof.
  intros Hk Hk1 Hk2. destruct m; simpl; [done|by apply binary_round_below..].
Qed.

Lemma SF_below_mono k k' f : k ≤ k' → SF_below k f → SF_below k' f.
Proof. destruct f; simpl; lia || done. Qed.

(** The difference of two numbers below [2 ^ k] is below [2 ^ (k + 2)]. *)
Lemma SFsub_below k f g :
  -1074 ≤ k → k ≤ 1020 →
  SF_below k f → SF_below k g → SF_below (k + 2) (SF64sub f g).
Proof.
  intros Hk1 Hk2.
  destruct f as [sf| | |sf mf ef], g as [sg| | |sg mg eg]; simpl; try done.
  - intros _ _. by destruct sf, sg.
  - lia.
  - lia.
  - intros Hf Hg.
    destruct (shl_align mf ef (Z.min ef eg)) as [mf' ef'] eqn:Ef.
    destruct (shl_align mg eg (Z.min ef eg)) as [mg' eg'] eqn:Eg.
    destruct (shl_align_spec _ _ _ _ _ Ef) as [Hdf Hef].
    destruct (shl_align_spec _ _ _ _ _ Eg) as [Hdg Heg].
    simpl.
    replace (k + 2) with ((k + 1) + 1) by lia.
    apply binary_normalize_below; [|lia..].
    assert (Zdigits2 (cond_Zopp sf (Zpos mf') - cond_Zopp sg (Zpos mg'))
            ≤ k + 1 - Z.min ef eg); [|lia].
    apply Zdigits2_le; [lia|].
    pose proof (Zpos_lt_pow_digits mf') as Hf'.
    pose proof (Zpos_lt_pow_digits mg') as Hg'.
    assert (2 ^ Zpos (digits2_pos mf') ≤ 2 ^ (k - Z.min ef eg))
      by (apply Z.pow_le_mono_r; lia).
    assert (2 ^ Zpos (digits2_pos mg') ≤ 2 ^ (k - Z.min ef eg))
      by (apply Z.pow_le_mono_r; lia).
    replace (k + 1 - Z.min ef eg) with ((k - Z.min ef eg) + 1) by lia.
    rewrite Z.pow_add_r by lia.
    destruct sf, sg; simpl; lia.
Qed.

(** The product of a number below [2 ^ k] and one below [2 ^ k'] is below
    [2 ^ (k + k' + 1)]. *)
Lemma SFmul_below k k' f g :
  -1074 ≤ k + k' → k + k' ≤ 972 →
  SF_below k f → SF_below k' g → SF_below (k + k' + 1) (SF64mul f g).
Proof.
  intros Hk1 Hk2.
  destruct f as [sf| | |sf mf ef], g as [sg| | |sg mg eg]; simpl; try done.
  intros Hf Hg.
  apply binary_round_aux_below; [done| | |lia..].
  - assert (Zdigits2 (Zpos (mf * mg))
            ≤ Zpos (digits2_pos mf) + Zpos (digits2_pos mg)); [|lia].
    apply Zdigits2_le; [lia|].
    pose proof (Zpos_lt_pow_digits mf). pose proof (Zpos_lt_pow_digits mg).
    rewrite Z.pow_add_r by lia. simpl Z.abs. rewrite Pos2Z.inj_mul. nia.
  - lia.
Qed.

Lemma valid_binary_digits s m e :
  valid_binary (S754_finite s m e) = true → Zpos (digits2_pos m) ≤ 53.
Proof.
  simpl. unfold bounded, canonical_mantissa, fexp, emin, prec, emax.
  intros [H _]%andb_prop. apply Z.eqb_eq in H. lia.
Qed.

Lemma Prim2SF_2p128 : Prim2SF 0x1p128 = S754_finite false 4503599627370496 76.
Proof. vm_compute. reflexivity. Qed.

Lemma Prim2SF_infinity : Prim2SF infinity = S754_infinity false.
Proof. vm_compute. reflexivity. Qed.

Lemma in_range_below c : in_range c = true → SF_below 129 (Prim2SF c).
Proof.
  unfold in_range. rewrite FloatAxioms.leb_spec, FloatAxioms.abs_spec, Prim2SF_2p128.
  pose proof (Prim2SF_valid c) as Hv.
  destruct (Prim2SF c) as [s| | |s m e]; try done.
  apply valid_binary_digits in Hv.
  unfold SFleb, SFabs, SFcompare, SF_below.
  destruct (Z.compare_spec e 76); intros; lia || done.
Qed.

Lemma is_infinity_below k c : SF_below k (Prim2SF c) → is_infinity c = false.
Proof.
  unfold is_infinity. rewrite FloatAxioms.eqb_spec, FloatAxioms.abs_spec, Prim2SF_infinity.
  by destruct (Prim2SF c).
Qed.

End Binary64Range.

(** ** The classifier *)

Lemma py_float_pow2_raise v e : py_float_pow2 v = Raise e → e = OverflowError.
Proof.
  unfold py_float_pow2. cbv zeta.
  destruct (is_finite v && is_infinity (v * v)); congruence.
Qed.

Lemma distance_2d_raise p q e : distance_2d p q = Raise e → e = OverflowError.
Proof.
  unfold distance_2d.
  destruct (py_float_pow2 (x p - x q)) eqn:E1; cbn.
  - destruct (py_float_pow2 (y p - y q)) eqn:E2; cbn; [done|].
    intros [= <-]. by eapply py_float_pow2_raise.
  - intros [= <-]. by eapply py_float_pow2_raise.
Qed.

Lemma distance_2d_ext p q p' q' :
  x p = x p' → y p = y p' → x q = x q' → y q = y q' →
  distance_2d p q = distance_2d p' q'.
Proof. unfold distance_2d. by intros -> -> -> ->. Qed.

Lemma decide_gesture_raise t i m r p d e :
  decide_gesture t i m r p d = Raise e → d = Raise e.
Proof.
  unfold decide_gesture.
  repeat (match goal with |- context [if ?b then _ else _] => destruct b end; try done).
  destruct d as [d|]; cbn; [|by intros [= ->]].
  repeat (match goal with |- context [if ?b then _ else _] => destruct b end; try done).
Qed.

Lemma decide_gesture_returns t i m r p d :
  returns d → returns (decide_gesture t i m r p d).
Proof.
  intros [v ->]. unfold decide_gesture, returns. cbn.
  repeat (match goal with |- context [if ?b then _ else _] => destruct b end; eauto).
Qed.

Lemma _get_finger_states_inv self lm fs :
  21 ≤ length lm → _get_finger_states self lm = Ok fs →
  ∃ tip_to_wrist mcp_to_wrist,
    distance_2d (lm !!! 4) (lm !!! 0) = Ok tip_to_wrist ∧
    distance_2d (lm !!! 1) (lm !!! 0) = Ok mcp_to_wrist ∧
    fs = finger_states_of
           (py_gt tip_to_wrist (mcp_to_wrist * 1.2)%float)
           (py_lt (y (lm !!! 8)) (y (lm !!! 5)))
           (py_lt (y (lm !!! 12)) (y (lm !!! 9)))
           (py_lt (y (lm !!! 16)) (y (lm !!! 13)))
           (py_lt (y (lm !!! 20)) (y (lm !!! 17))).
Proof.
  intros Hlen. rewrite _get_finger_states_eq by done.
  destruct (distance_2d (lm !!! 4) (lm !!! 0)) as [tw|]; [cbn | done].
  destruct (distance_2d (lm !!! 1) (lm !!! 0)) as [mw|]; [cbn | done].
  intros [= <-]. eauto.
Qed.

Lemma classify_gesture_long self lm :
  21 ≤ length lm →
  classify_gesture self lm
  = (fs ← _get_finger_states self lm; _analyze_gesture_pattern self lm fs).
Proof.
  intros Hlen. unfold classify_gesture.
  destruct (Nat.ltb_spec (length lm) 21) as [|_]; [lia|].
  destruct (_get_finger_states self lm) as [fs|]; [cbn | done].
  by destruct (_analyze_gesture_pattern self lm fs).
Qed.

(** The lookups that make [_is_pointing_gesture] answer [True]: they are those
    of the pattern, on any dict. *)
Lemma _is_pointing_gesture_true self (fs : gmap string bool) :
  _is_pointing_gesture self fs = Ok true ↔
  fs !! "index" = Some true ∧ fs !! "middle" = Some false ∧
  fs !! "ring" = Some false ∧ fs !! "pinky" = Some false.
Proof.
  unfold _is_pointing_gesture, py_and, py_not, py_dict_getitem.
  destruct (fs !! "index") as [[|]|], (fs !! "middle") as [[|]|],
    (fs !! "ring") as [[|]|], (fs !! "pinky") as [[|]|]; cbn;
    (split; [intros [=] | intros (? & ? & ? & ?)]; done).
Qed.

(** Every branch of the chain returns one of the eight literal results, and
    the first of them exactly when [_is_pointing_gesture] holds. *)
Lemma _analyze_gesture_pattern_cases self lm fs r :
  _analyze_gesture_pattern self lm fs = Ok r →
  r ∈ gesture_results ∧
  (gesture r = POINT ↔ _is_pointing_gesture self fs = Ok true).
Proof.
  unfold _analyze_gesture_pattern. cbv zeta.
  destruct (_is_pointing_gesture self fs) as [[|]|]; cbn; [| |done].
  { intros [= <-]. split; [set_solver|done]. }
  repeat match goal with
  | |- (if ?b then _ else _) = Ok _ → _ => destruct b
  | |- (?m ≫= _) = Ok _ → _ => destruct m as [[|]|]; cbn; [| |done]
  | |- Ok _ = Ok _ → _ => intros [= <-]; split; [set_solver | split; done]
  end.
Qed.

(** C1: a list of fewer than 21 landmarks, the empty one included, is
    answered at once by the result [NONE], [0.0], ['No valid hand detected'],
    returned and not raised. *)
Theorem classify_gesture_short self lm :
  length lm < 21 →
  classify_gesture self lm
  = Ok {| gesture := NONE; confidence := 0.0;
          description := "No valid hand detected" |}.
Proof.
  intros Hlen. unfold classify_gesture.
  by destruct (Nat.ltb_spec (length lm) 21) as [_|]; [|lia].
Qed.

Lemma classify_gesture_short_witness :
  length (@nil Landmark) < 21 ∧
  classify_gesture (GestureClassifier_init None) []
  = Ok {| gesture := NONE; confidence := 0.0;
          description := "No valid hand detected" |}.
Proof.
  split; [simpl; lia|].
  apply (classify_gesture_short (GestureClassifier_init None) []). simpl; lia.
Defined.



Lemma _analyze_gesture_pattern_pointing self lm fs :
  _is_pointing_gesture self fs = Ok true →
  _analyze_gesture_pattern self lm fs
  = Ok (mkGestureResult POINT 0.9 "Pointing gesture detected").
Proof. intros H. unfold _analyze_gesture_pattern. by rewrite H. Qed.

(** C6: on a skeleton of at least 21 landmarks with derived finger states
    [fs], the classifier returns [POINT] exactly when the index is extended
    and middle, ring and pinky are not, and then with confidence 0.9 whatever
    the thumb; with any one of the four states flipped the chain does not
    answer [POINT]. *)
Theorem classify_gesture_point_iff self lm fs :
  21 ≤ length lm →
  _get_finger_states self lm = Ok fs →
  let pointing :=
    fs !! "index" = Some true ∧ fs !! "middle" = Some false ∧
    fs !! "ring" = Some false ∧ fs !! "pinky" = Some false in
  ((∃ r, classify_gesture self lm = Ok r ∧ gesture r = POINT) ↔ pointing) ∧
  (pointing →
     classify_gesture self lm
     = Ok (mkGestureResult POINT 0.9 "Pointing gesture detected") ∧
     _analyze_gesture_pattern self lm (alter negb "thumb" fs)
     = Ok (mkGestureResult POINT 0.9 "Pointing gesture detected") ∧
     ∀ k r, k ∈ ["index"; "middle"; "ring"; "pinky"] →
       _analyze_gesture_pattern self lm (alter negb k fs) = Ok r →
       gesture r ≠ POINT).
Proof.
  intros Hlen Hfs pointing. subst pointing.
  rewrite classify_gesture_long, Hfs by done. cbn.
  split.
  - rewrite <- _is_pointing_gesture_true. split.
    + intros (r & Hr & Hg). by apply (_analyze_gesture_pattern_cases _ _ _ _ Hr).
    + intros Hp. eexists. split; [by apply _analyze_gesture_pattern_pointing|done].
  - intros (Hi & Hm & Hr & Hp). split; [|split].
    + apply _analyze_gesture_pattern_pointing.
      by apply _is_pointing_gesture_true.
    + apply _analyze_gesture_pattern_pointing, _is_pointing_gesture_true.
      by rewrite !lookup_alter_ne.
    + intros k r Hk Hres Hg.
      apply (_analyze_gesture_pattern_cases _ _ _ _ Hres) in Hg.
      apply _is_pointing_gesture_true in Hg as (Hi' & Hm' & Hr' & Hp').
      repeat (apply elem_of_cons in Hk as [-> | Hk]);
        [ rewrite lookup_alter_eq, Hi in Hi'
        | rewrite lookup_alter_eq, Hm in Hm'
        | rewrite lookup_alter_eq, Hr in Hr'
        | rewrite lookup_alter_eq, Hp in Hp'
        | by apply elem_of_nil in Hk ]; done.
Qed.

Lemma classify_gesture_point_iff_witness :
  21 ≤ length pointing_hand ∧
  _get_finger_states (GestureClassifier_init None) pointing_hand
  = Ok (finger_states_of false true false false false) ∧
  classify_gesture (GestureClassifier_init None) pointing_hand
  = Ok (mkGestureResult POINT 0.9 "Pointing gesture detected").
Proof.
  split; [vm_compute; lia|]. split; [vm_compute; reflexivity|].
  apply (classify_gesture_point_iff (GestureClassifier_init None) pointing_hand
           (finger_states_of false true false false false)
           ltac:(vm_compute; lia) ltac:(vm_compute; reflexivity)).
  by vm_compute.
Defined.

Lemma classify_gesture_results self lm r :
  classify_gesture self lm = Ok r →
  r ∈ mkGestureResult NONE 0 "No valid hand detected" :: gesture_results.
Proof.
  unfold classify_gesture.
  destruct (length lm <? 21)%nat.
  - intros [= <-]. set_solver.
  - destruct (_get_finger_states self lm) as [fs|]; [cbn | done].
    destruct (_analyze_gesture_pattern self lm fs) as [r'|] eqn:E; [cbn | done].
    intros [= <-]. apply elem_of_cons. right.
    by apply (_analyze_gesture_pattern_cases _ _ _ _ E).
Qed.

(** C7: the confidence of every result that [classify_gesture] returns is the
    constant of its label: 0.9 for POINT, OPEN_PALM and FIST, 0.8 for
    THUMBS_UP, PEACE, OK_SIGN and PINCH, 0.0 for NONE; so it is one of 0.0,
    0.8 and 0.9, and it is 0.0 exactly when the gesture is NONE. *)
Theorem classify_gesture_confidence self lm r :
  classify_gesture self lm = Ok r →
  confidence r = spec_confidence (gesture r) ∧
  (confidence r = 0%float ∨ confidence r = 0.8%float ∨ confidence r = 0.9%float) ∧
  (confidence r = 0%float ↔ gesture r = NONE).
Proof.
  intros Hr. apply classify_gesture_results in Hr.
  unfold gesture_results in Hr.
  repeat (apply elem_of_cons in Hr as [-> | Hr]); [..|by apply elem_of_nil in Hr];
    cbn; (split; [reflexivity|]); (split; [auto|]);
    (split; [intros E | intros [=]]);
    first [ reflexivity
          | by apply confidence_09_nonzero in E
          | by apply confidence_08_nonzero in E ].
Qed.

Lemma classify_gesture_confidence_witness :
  classify_gesture (GestureClassifier_init None) ok_hand
  = Ok (mkGestureResult OK_SIGN 0.8 "OK sign detected") ∧
  0.8%float = spec_confidence OK_SIGN.
Proof.
  split; [vm_compute; reflexivity|].
  apply (classify_gesture_confidence (GestureClassifier_init None) ok_hand
           (mkGestureResult OK_SIGN 0.8 "OK sign detected")).
  vm_compute; reflexivity.
Defined.

(** C10: two lists of at least 21 landmarks that agree in [x] and [y] at the
    indices 0 to 20 get the same outcome, the same gesture, confidence and
    description, from any two classifier instances: further landmarks, the
    depths [z] and [confidence_threshold] have no influence. *)
Theorem classify_gesture_depends_on_xy self1 self2 lm1 lm2 :
  21 ≤ length lm1 → 21 ≤ length lm2 →
  (∀ i, i ≤ 20 →
     x (lm1 !!! i) = x (lm2 !!! i) ∧ y (lm1 !!! i) = y (lm2 !!! i)) →
  classify_gesture self1 lm1 = classify_gesture self2 lm2.
Proof.
  intros Hlen1 Hlen2 Hxy.
  assert (Hx : ∀ i, i ≤ 20 → x (lm1 !!! i) = x (lm2 !!! i)) by (intros; by apply Hxy).
  assert (Hy : ∀ i, i ≤ 20 → y (lm1 !!! i) = y (lm2 !!! i)) by (intros; by apply Hxy).
  rewrite !classify_gesture_eq by done.
  rewrite (distance_2d_ext (lm1 !!! 4) (lm1 !!! 0) (lm2 !!! 4) (lm2 !!! 0))
    by (apply Hx || apply Hy; lia).
  rewrite (distance_2d_ext (lm1 !!! 1) (lm1 !!! 0) (lm2 !!! 1) (lm2 !!! 0))
    by (apply Hx || apply Hy; lia).
  rewrite (distance_2d_ext (lm1 !!! 4) (lm1 !!! 8) (lm2 !!! 4) (lm2 !!! 8))
    by (apply Hx || apply Hy; lia).
  by rewrite !(Hy 5), !(Hy 8), !(Hy 9), !(Hy 12), !(Hy 13), !(Hy 16),
    !(Hy 17), !(Hy 20) by lia.
Qed.

Lemma classify_gesture_depends_on_xy_witness :
  21 ≤ length pointing_hand ∧ 21 ≤ length pointing_hand_deep ∧
  (∀ i, i ≤ 20 →
     x (pointing_hand !!! i) = x (pointing_hand_deep !!! i) ∧
     y (pointing_hand !!! i) = y (pointing_hand_deep !!! i)) ∧
  classify_gesture (GestureClassifier_init None) pointing_hand
  = classify_gesture (GestureClassifier_init (Some 0.25%float)) pointing_hand_deep.
Proof.
  assert (H : ∀ i, i ≤ 20 →
     x (pointing_hand !!! i) = x (pointing_hand_deep !!! i) ∧
     y (pointing_hand !!! i) = y (pointing_hand_deep !!! i)).
  { intros i Hi. do 21 (destruct i as [|i]; [by vm_compute|]). lia. }
  split; [vm_compute; lia|]. split; [vm_compute; lia|]. split; [exact H|].
  apply (classify_gesture_depends_on_xy (GestureClassifier_init None)
           (GestureClassifier_init (Some 0.25%float))
           pointing_hand pointing_hand_deep
           ltac:(vm_compute; lia) ltac:(vm_compute; lia) H).
Defined.

(** C2, as the code has it: a skeleton that passes both the OK_SIGN test
    (middle, ring and pinky extended, tips of thumb and index closer than
    0.05) and the PINCH test (closer than 0.03) is never classified PINCH; it
    is OK_SIGN with confidence 0.8 unless thumb and index are extended too, in
    which case the earlier OPEN_PALM rule answers, with confidence 0.9. *)
Theorem ok_sign_before_pinch self lm fs t i d :
  21 ≤ length lm →
  _get_finger_states self lm = Ok fs →
  fs !! "thumb" = Some t → fs !! "index" = Some i →
  fs !! "middle" = Some true → fs !! "ring" = Some true →
  fs !! "pinky" = Some true →
  distance_2d (lm !!! 4) (lm !!! 8) = Ok d →
  py_lt d 0.05 = true → py_lt d 0.03 = true →
  classify_gesture self lm
  = Ok (if t && i
        then mkGestureResult OPEN_PALM 0.9 "Open palm gesture detected"
        else mkGestureResult OK_SIGN 0.8 "OK sign detected") ∧
  ∀ r, classify_gesture self lm = Ok r → gesture r ≠ PINCH.
Proof.
  intros Hlen Hfs Ht Hi Hm Hr Hp Hd Hok Hpinch.
  assert (Hc : classify_gesture self lm
    = Ok (if t && i
          then mkGestureResult OPEN_PALM 0.9 "Open palm gesture detected"
          else mkGestureResult OK_SIGN 0.8 "OK sign detected")).
  { rewrite classify_gesture_long, Hfs by done. cbn.
    destruct (_get_finger_states_inv _ _ _ Hlen Hfs) as (tw & mw & _ & _ & ->).
    rewrite _analyze_gesture_pattern_of by lia.
    pose proof (finger_states_of_lookup
      (py_gt tw (mw * 1.2)%float)
      (py_lt (y (lm !!! 8)) (y (lm !!! 5)))
      (py_lt (y (lm !!! 12)) (y (lm !!! 9)))
      (py_lt (y (lm !!! 16)) (y (lm !!! 13)))
      (py_lt (y (lm !!! 20)) (y (lm !!! 17)))) as (Ht' & Hi' & Hm' & Hr' & Hp').
    rewrite Ht' in Ht. rewrite Hi' in Hi. rewrite Hm' in Hm.
    rewrite Hr' in Hr. rewrite Hp' in Hp.
    injection Ht as ->. injection Hi as ->. injection Hm as ->.
    injection Hr as ->. injection Hp as ->.
    unfold decide_gesture. rewrite Hd, bind_Ok, Hok.
    by destruct t, i. }
  split; [done|].
  intros r. rewrite Hc. intros [= <-]. by destruct (t && i).
Qed.

Lemma ok_sign_before_pinch_witness :
  21 ≤ length ok_hand ∧
  _get_finger_states (GestureClassifier_init None) ok_hand
  = Ok (finger_states_of true false true true true) ∧
  (∃ d, distance_2d (ok_hand !!! 4) (ok_hand !!! 8) = Ok d ∧
        py_lt d 0.05 = true ∧ py_lt d 0.03 = true) ∧
  classify_gesture (GestureClassifier_init None) ok_hand
  = Ok (mkGestureResult OK_SIGN 0.8 "OK sign detected").
Proof.
  split; [vm_compute; lia|]. split; [vm_compute; reflexivity|].
  split; [eexists; repeat split; vm_compute; reflexivity|].
  apply (ok_sign_before_pinch (GestureClassifier_init None) ok_hand
           (finger_states_of true false true true true) true false _
           ltac:(vm_compute; lia) ltac:(vm_compute; reflexivity)
           ltac:(vm_compute; reflexivity) ltac:(vm_compute; reflexivity)
           ltac:(vm_compute; reflexivity) ltac:(vm_compute; reflexivity)
           ltac:(vm_compute; reflexivity) ltac:(vm_compute; reflexivity)
           ltac:(vm_compute; reflexivity) ltac:(vm_compute; reflexivity)).
Defined.

(** C2, as stated, fails on [open_pinch_hand]: middle, ring and pinky are
    extended and the tips of thumb and index are closer than 0.03, yet thumb
    and index are extended as well and the answer is OPEN_PALM. *)
Lemma ok_pinch_pattern_open_palm :
  21 ≤ length open_pinch_hand ∧
  _get_finger_states (GestureClassifier_init None) open_pinch_hand
  = Ok (finger_states_of true true true true true) ∧
  (∃ d, distance_2d (open_pinch_hand !!! 4) (open_pinch_hand !!! 8) = Ok d ∧
        py_lt d 0.05 = true ∧ py_lt d 0.03 = true) ∧
  _is_ok_sign (GestureClassifier_init None) open_pinch_hand
    (finger_states_of true true true true true) = Ok true ∧
  _is_pinch_gesture (GestureClassifier_init None) open_pinch_hand = Ok true ∧
  classify_gesture (GestureClassifier_init None) open_pinch_hand
  = Ok (mkGestureResult OPEN_PALM 0.9 "Open palm gesture detected").
Proof.
  split; [vm_compute; lia|]. split; [vm_compute; reflexivity|].
  split; [eexists; repeat split; vm_compute; reflexivity|].
  repeat split; vm_compute; reflexivity.
Qed.

Lemma decide_gesture_open_palm_fist t i m r p d res :
  decide_gesture t i m r p d = Ok res →
  (gesture res = OPEN_PALM ↔ t && i && m && r && p = true) ∧
  (gesture res = FIST ↔ negb (t || i || m || r || p) = true).
Proof.
  unfold decide_gesture.
  destruct t, i, m, r, p; cbn;
    try (intros [= <-]; by split; split);
    (destruct d as [d|]; cbn; [|done]);
    repeat (match goal with |- context [if ?b then _ else _] => destruct b end);
    intros [= <-]; by split; split.
Qed.

(** X4: OPEN_PALM and FIST are the two extremes of the finger states: on a
    skeleton of at least 21 landmarks the classifier returns OPEN_PALM exactly
    when the five derived states are all extended and FIST exactly when none
    is, so that a mixed vector is neither. *)
Theorem classify_gesture_open_palm_fist self lm fs res :
  21 ≤ length lm →
  _get_finger_states self lm = Ok fs →
  classify_gesture self lm = Ok res →
  (gesture res = OPEN_PALM ↔
     ∀ k, k ∈ ["thumb"; "index"; "middle"; "ring"; "pinky"] → fs !! k = Some true) ∧
  (gesture res = FIST ↔
     ∀ k, k ∈ ["thumb"; "index"; "middle"; "ring"; "pinky"] → fs !! k = Some false).
Proof.
  intros Hlen Hfs.
  rewrite classify_gesture_long, Hfs by done. cbn.
  destruct (_get_finger_states_inv _ _ _ Hlen Hfs) as (tw & mw & _ & _ & ->).
  rewrite _analyze_gesture_pattern_of by lia.
  set (t := py_gt tw (mw * 1.2)%float).
  set (i := py_lt (y (lm !!! 8)) (y (lm !!! 5))).
  set (m := py_lt (y (lm !!! 12)) (y (lm !!! 9))).
  set (r := py_lt (y (lm !!! 16)) (y (lm !!! 13))).
  set (p := py_lt (y (lm !!! 20)) (y (lm !!! 17))).
  intros Hres.
  destruct (decide_gesture_open_palm_fist _ _ _ _ _ _ _ Hres) as [Hopen Hfist].
  destruct (finger_states_of_lookup t i m r p) as (Ht & Hi & Hm & Hr & Hp).
  assert (Hall : ∀ b, (∀ k, k ∈ ["thumb"; "index"; "middle"; "ring"; "pinky"] →
                         finger_states_of t i m r p !! k = Some b) ↔
                      t = b ∧ i = b ∧ m = b ∧ r = b ∧ p = b).
  { intros b. split.
    - intros H. repeat split; apply (inj Some).
      + rewrite <- Ht. apply H. repeat constructor.
      + rewrite <- Hi. apply H. repeat constructor.
      + rewrite <- Hm. apply H. repeat constructor.
      + rewrite <- Hr. apply H. repeat constructor.
      + rewrite <- Hp. apply H. repeat constructor.
    - intros (<- & <- & <- & <- & <-) k Hk.
      repeat (apply elem_of_cons in Hk as [-> | Hk]; [done|]).
      by apply elem_of_nil in Hk. }
  rewrite Hopen, Hfist, !Hall.
  clear. destruct t, i, m, r, p; cbn; split; split; try done;
    intros (? & ? & ? & ? & ?); done.
Qed.

Lemma classify_gesture_open_palm_fist_witness :
  21 ≤ length flat_hand ∧
  _get_finger_states (GestureClassifier_init None) flat_hand
  = Ok (finger_states_of false false false false false) ∧
  classify_gesture (GestureClassifier_init None) flat_hand
  = Ok (mkGestureResult FIST 0.9 "Fist gesture detected") ∧
  ∀ k, k ∈ ["thumb"; "index"; "middle"; "ring"; "pinky"] →
       finger_states_of false false false false false !! k = Some false.
Proof.
  split; [vm_compute; lia|]. split; [vm_compute; reflexivity|].
  split; [vm_compute; reflexivity|].
  apply (classify_gesture_open_palm_fist (GestureClassifier_init None) flat_hand
           (finger_states_of false false false false false)
           (mkGestureResult FIST 0.9 "Fist gesture detected")
           ltac:(vm_compute; lia) ltac:(vm_compute; reflexivity)
           ltac:(vm_compute; reflexivity)).
  reflexivity.
Defined.

Lemma py_float_pow2_in_range a b :
  in_range a = true → in_range b = true →
  py_float_pow2 (a - b) = Ok ((a - b) * (a - b))%float.
Proof.
  intros Ha%in_range_below Hb%in_range_below.
  unfold py_float_pow2. cbv zeta.
  rewrite (is_infinity_below 263); [by rewrite andb_false_r|].
  rewrite FloatAxioms.mul_spec, FloatAxioms.sub_spec.
  apply (SFmul_below 131 131); [lia..| |]; by apply (SFsub_below 129).
Qed.

Lemma distance_2d_in_range p q :
  landmark_in_range p = true → landmark_in_range q = true →
  returns (distance_2d p q).
Proof.
  unfold landmark_in_range.
  intros [Hpx Hpy]%andb_prop [Hqx Hqy]%andb_prop.
  unfold distance_2d.
  rewrite !py_float_pow2_in_range by done. by eexists.
Qed.

Lemma classify_gesture_raise self lm e :
  classify_gesture self lm = Raise e →
  21 ≤ length lm ∧
  (distance_2d (lm !!! 4) (lm !!! 0) = Raise e ∨
   distance_2d (lm !!! 1) (lm !!! 0) = Raise e ∨
   distance_2d (lm !!! 4) (lm !!! 8) = Raise e).
Proof.
  destruct (decide (length lm < 21)) as [Hlt|Hge].
  { unfold classify_gesture. by destruct (Nat.ltb_spec (length lm) 21); [|lia]. }
  rewrite classify_gesture_eq by lia. intros He.
  split; [lia|]. revert He.
  destruct (distance_2d (lm !!! 4) (lm !!! 0)); [cbn | intros [= ->]; by left].
  destruct (distance_2d (lm !!! 1) (lm !!! 0));
    [cbn | intros [= ->]; by right; left].
  intros He%decide_gesture_raise. by right; right.
Qed.

(** C8, as the code has it: [classify_gesture] never raises for a missing
    index or key, since every access to the landmarks 0 to 20 comes after the
    length check.  What it can raise is the [OverflowError] of [**], on a
    list of at least 21 landmarks, from one of its three distances (thumb tip
    to wrist, thumb base to wrist, thumb tip to index tip).  It returns one
    of its nine literal results on every shorter list and on every list
    whose coordinates [x] and [y] are at most [2 ^ 128] in magnitude. *)
Theorem classify_gesture_raises_only_overflow self lm :
  (∀ e, classify_gesture self lm = Raise e →
        e = OverflowError ∧ 21 ≤ length lm ∧
        (distance_2d (lm !!! 4) (lm !!! 0) = Raise e ∨
         distance_2d (lm !!! 1) (lm !!! 0) = Raise e ∨
         distance_2d (lm !!! 4) (lm !!! 8) = Raise e)) ∧
  (length lm < 21 ∨ Forall (λ l, landmark_in_range l = true) lm →
   ∃ r, classify_gesture self lm = Ok r ∧
        r ∈ mkGestureResult NONE 0 "No valid hand detected" :: gesture_results).
Proof.
  split.
  - intros e He. destruct (classify_gesture_raise _ _ _ He) as [Hlen Hd].
    split; [|done].
    destruct Hd as [Hd|[Hd|Hd]]; by eapply distance_2d_raise.
  - intros H.
    destruct (classify_gesture self lm) as [r|e] eqn:E.
    { exists r. split; [done|]. by eapply classify_gesture_results. }
    destruct (classify_gesture_raise _ _ _ E) as [Hlen Hd].
    destruct H as [Hlt|Hrange]; [lia|].
    assert (Hi : ∀ i, i < 21 → landmark_in_range (lm !!! i) = true).
    { intros i Hi.
      apply (Forall_lookup_total_1 (λ l, landmark_in_range l = true) lm i Hrange).
      lia. }
    destruct Hd as [Hd|[Hd|Hd]];
      match type of Hd with distance_2d ?p ?q = _ =>
        destruct (distance_2d_in_range p q) as [d Hd']; [apply Hi; lia..|]
      end; congruence.
Qed.

Lemma classify_gesture_raises_only_overflow_witness :
  Forall (λ l, landmark_in_range l = true) ok_hand ∧
  ∃ r, classify_gesture (GestureClassifier_init None) ok_hand = Ok r ∧
       r ∈ mkGestureResult NONE 0 "No valid hand detected" :: gesture_results.
Proof.
  assert (H : Forall (λ l, landmark_in_range l = true) ok_hand).
  { apply Forall_forall. intros l Hl.
    repeat (apply elem_of_cons in Hl as [-> | Hl]; [by vm_compute|]).
    by apply elem_of_nil in Hl. }
  split; [exact H|].
  apply (classify_gesture_raises_only_overflow (GestureClassifier_init None) ok_hand).
  right. exact H.
Defined.

(** C8, as stated, fails on [far_wrist_hand]: with the wrist at [x = 1e200]
    the square of the distance to the thumb is out of range and the call
    raises [OverflowError]. *)
Lemma classify_gesture_overflow :
  21 ≤ length far_wrist_hand ∧
  py_float_pow2 (x (far_wrist_hand !!! 4) - x (far_wrist_hand !!! 0))
  = Raise OverflowError ∧
  classify_gesture (GestureClassifier_init None) far_wrist_hand
  = Raise OverflowError.
Proof. repeat split; vm_compute; (lia || reflexivity). Qed.

(** ** The session *)

Section SessionProperties.

Context {Frame VideoCapture Hands Callback : Type}.
Variable Hands_process : Hands → Frame → result ((Frame * list Hand) * Hands).
Variable Hands_close : Hands → result Hands.
Variable VideoCapture_release : VideoCapture → result VideoCapture.
Variable cv2_destroyAllWindows : result ().
Variable draw_overlay : Frame → GestureInfo → Frame.
Variable classify : GestureClassifier → list Landmark → result GestureResult.

(** C4: when the detector reports no hand, [process_frame] returns the result
    [NONE], [0.0], ['No hands detected'] with [hand_count] 0, calls no
    callback, and leaves [current_gesture] and [gesture_confidence] as they
    were, so that [get_current_gesture] still answers what the last frame
    with a hand has set. *)
Theorem process_frame_no_hands
    (self : @ARInterface VideoCapture Hands Callback) frame tracker h annotated h' :
  hand_tracker self = Some tracker →
  hands tracker = Some h →
  Hands_process h frame = Ok ((annotated, []), h') →
  ∃ self' out_frame,
    process_frame Hands_process draw_overlay classify self frame
    = Ok (self', [],
          (out_frame,
           {| info_gesture := NONE; info_confidence := 0.0;
              info_description := "No hands detected"; hand_count := 0 |})) ∧
    self' = set_hand_tracker (Some (mkHandTracker (Some h'))) self ∧
    current_gesture self' = current_gesture self ∧
    gesture_confidence self' = gesture_confidence self ∧
    get_current_gesture self' = get_current_gesture self.
Proof.
  intros Htracker Hh Hdetect.
  unfold process_frame, detect_hands.
  rewrite Htracker. cbn. rewrite Hh. cbn. rewrite Hdetect. cbn.
  eauto 10.
Qed.

(** C3: when the detector reports at least one hand and the classifier
    returns [r] for the first, [process_frame] records [r] in the session and
    calls a callback exactly when [confidence r > 0.7] and one is registered
    for [gesture r]: that callback, once, with the returned [gesture_info].
    At a confidence of exactly 0.7 nothing is called. *)
Theorem process_frame_dispatch
    (self : @ARInterface VideoCapture Hands Callback)
    frame tracker h annotated hand others h' r :
  hand_tracker self = Some tracker →
  hands tracker = Some h →
  Hands_process h frame = Ok ((annotated, hand :: others), h') →
  classify (gesture_classifier self) (landmarks hand) = Ok r →
  ∃ self' called out_frame,
    process_frame Hands_process draw_overlay classify self frame
    = Ok (self', called, (out_frame, update (mkGestureInfo NONE 0 "No hands detected" (S (length others))) r)) ∧
    get_current_gesture self' = (gesture r, confidence r) ∧
    (∀ callback gesture_info,
       (callback, gesture_info) ∈ called ↔
       py_gt (confidence r) 0.7 = true ∧
       gesture_callbacks self !! gesture r = Some callback ∧
       gesture_info = update (mkGestureInfo NONE 0 "No hands detected" (S (length others))) r) ∧
    length called ≤ 1 ∧
    (confidence r = 0.7%float → called = []).
Proof.
  intros Htracker Hh Hdetect Hr.
  unfold process_frame, detect_hands.
  rewrite Htracker. cbn. rewrite Hh. cbn. rewrite Hdetect. cbn. rewrite Hr. cbn.
  unfold py_in, py_dict_getitem, py_gt.
  destruct (gesture_callbacks self !! gesture r) as [cb|] eqn:Hcb.
  - rewrite bool_decide_eq_true_2 by eauto.
    destruct (0.7 <? confidence r)%float eqn:Hgt; cbn.
    + do 3 eexists. split; [reflexivity|]. split; [reflexivity|].
      split; [|split; [cbn; lia|]].
      * intros callback gesture_info. rewrite list_elem_of_singleton.
        split; [by intros [= -> ->] | by intros (_ & [= ->] & ->)].
      * intros E. rewrite E in Hgt. by vm_compute in Hgt.
    + do 3 eexists. split; [reflexivity|]. split; [reflexivity|].
      split; [|split; [cbn; lia|done]].
      intros callback gesture_info.
      split; [by intros ?%elem_of_nil | by intros [? _]].
  - rewrite bool_decide_eq_false_2 by (by intros [? ?]).
    rewrite andb_false_r. cbn.
    do 3 eexists. split; [reflexivity|]. split; [reflexivity|].
    split; [|split; [cbn; lia|done]].
    intros callback gesture_info.
    split; [by intros ?%elem_of_nil | by intros (_ & ? & _)].
Qed.

Lemma process_frame_hand_count_0
    (self self' : @ARInterface VideoCapture Hands Callback) frame called out :
  process_frame Hands_process draw_overlay classify self frame
  = Ok (self', called, out) →
  hand_count out.2 = 0 →
  called = [] ∧ get_current_gesture self' = get_current_gesture self ∧
  out.2 = mkGestureInfo NONE 0 "No hands detected" 0.
Proof.
  unfold process_frame.
  destruct (py_attr (hand_tracker self)) as [tracker|]; [cbn | done].
  destruct (detect_hands Hands_process tracker frame)
    as [[[annotated hand_landmarks_list] tracker']|]; [cbn | done].
  destruct hand_landmarks_list as [|hand others]; cbn.
  - by intros [= <- <- <-].
  - destruct (classify _ _) as [r|]; [cbn | done].
    match goal with |- context [if ?b then _ else _] => destruct b end; cbn.
    + destruct (py_dict_getitem _ _); [cbn | done]. by intros [= <- <- <-].
    + by intros [= <- <- <-].
Qed.

(** X1: frames without a hand, however many, call nothing and leave the
    answer of [get_current_gesture] as it was. *)
Lemma process_frames_no_hands
    (self self' : @ARInterface VideoCapture Hands Callback) frames called outs :
  process_frames Hands_process draw_overlay classify self frames
  = Ok (self', called, outs) →
  Forall (λ out, hand_count out.2 = 0) outs →
  called = [] ∧ get_current_gesture self' = get_current_gesture self.
Proof.
  revert self called outs.
  induction frames as [|frame frames IH]; intros self called outs; cbn.
  { by intros [= <- <- <-]. }
  destruct (process_frame _ _ _ self frame) as [[[self1 called1] out]|] eqn:E1;
    [cbn | done].
  destruct (process_frames _ _ _ self1 frames) as [[[self2 called2] outs2]|] eqn:E2;
    [cbn | done].
  intros [= <- <- <-] [Hout Houts]%Forall_cons.
  destruct (process_frame_hand_count_0 _ _ _ _ _ E1 Hout) as (-> & <- & _).
  by destruct (IH _ _ _ E2 Houts) as (-> & ->).
Qed.


(** X2: with the classifier of the repository no callback is ever called for
    NONE, whatever is registered: what is called is called with a gesture
    other than NONE and a confidence of 0.8 or 0.9. *)
Theorem process_frame_never_dispatches_none
    (self self' : @ARInterface VideoCapture Hands Callback) frame called out :
  process_frame Hands_process draw_overlay classify_gesture self frame
  = Ok (self', called, out) →
  ∀ callback gesture_info, (callback, gesture_info) ∈ called →
    info_gesture gesture_info ≠ NONE ∧
    (info_confidence gesture_info = 0.8%float ∨
     info_confidence gesture_info = 0.9%float).
Proof.
  unfold process_frame.
  destruct (py_attr (hand_tracker self)) as [tracker|]; [cbn | done].
  destruct (detect_hands Hands_process tracker frame)
    as [[[annotated hand_landmarks_list] tracker']|]; [cbn | done].
  destruct hand_landmarks_list as [|hand others]; cbn.
  { intros [= <- <- <-] ? ? ?%elem_of_nil. done. }
  destruct (classify_gesture _ _) as [r|] eqn:Hr; [cbn | done].
  apply classify_gesture_results in Hr.
  destruct (0.7 <? confidence r)%float eqn:Hgt; cbn;
    [|by intros [= <- <- <-] ? ? ?%elem_of_nil].
  destruct (py_in _ _); cbn; [|by intros [= <- <- <-] ? ? ?%elem_of_nil].
  destruct (py_dict_getitem _ _) as [cb|]; [cbn | done].
  intros [= <- <- <-] callback gesture_info [= -> ->]%list_elem_of_singleton. cbn.
  unfold gesture_results in Hr.
  repeat (apply elem_of_cons in Hr as [-> | Hr]); [..|by apply elem_of_nil in Hr];
    cbn in *; first [done | by auto].
Qed.


End SessionProperties.

Lemma process_frame_no_hands_witness :
  hand_tracker sample_session_pointing = Some (mkHandTracker (Some false)) ∧
  sample_process false [] = Ok (([], []), false) ∧
  ∃ self' out_frame,
    process_frame sample_process sample_overlay classify_gesture
      sample_session_pointing []
    = Ok (self', [],
          (out_frame, mkGestureInfo NONE 0 "No hands detected" 0)) ∧
    get_current_gesture self' = (POINT, 0.9%float).
Proof.
  split; [reflexivity|]. split; [reflexivity|].
  destruct (process_frame_no_hands sample_process sample_overlay classify_gesture
              sample_session_pointing [] (mkHandTracker (Some false)) false [] false
              eq_refl eq_refl eq_refl)
    as (self' & out_frame & Hcall & _ & _ & _ & Hget).
  exists self', out_frame. split; [exact Hcall|]. exact Hget.
Defined.

Lemma process_frame_dispatch_witness :
  hand_tracker sample_session_on_point = Some (mkHandTracker (Some false)) ∧
  sample_process false [mkHand pointing_hand]
  = Ok (([mkHand pointing_hand], [mkHand pointing_hand]), false) ∧
  classify_gesture (gesture_classifier sample_session_on_point) pointing_hand
  = Ok (mkGestureResult POINT 0.9 "Pointing gesture detected") ∧
  ∃ self' called out_frame,
    process_frame sample_process sample_overlay classify_gesture
      sample_session_on_point [mkHand pointing_hand]
    = Ok (self', called,
          (out_frame, mkGestureInfo POINT 0.9 "Pointing gesture detected" 1)) ∧
    get_current_gesture self' = (POINT, 0.9%float) ∧
    ("on_point", mkGestureInfo POINT 0.9 "Pointing gesture detected" 1) ∈ called.
Proof.
  split; [reflexivity|]. split; [reflexivity|]. split; [vm_compute; reflexivity|].
  destruct (process_frame_dispatch sample_process sample_overlay classify_gesture
              sample_session_on_point [mkHand pointing_hand]
              (mkHandTracker (Some false)) false [mkHand pointing_hand]
              (mkHand pointing_hand) [] false
              (mkGestureResult POINT 0.9 "Pointing gesture detected")
              eq_refl eq_refl eq_refl ltac:(vm_compute; reflexivity))
    as (self' & called & out_frame & Hcall & Hget & Hiff & _ & _).
  exists self', called, out_frame. split; [exact Hcall|]. split; [exact Hget|].
  apply Hiff. repeat split; vm_compute; reflexivity.
Defined.



Lemma process_frames_no_hands_witness :
  process_frames sample_process sample_overlay classify_gesture
    sample_session_pointing [[]; []; []]
  = Ok (sample_session_pointing, [],
        [([], mkGestureInfo NONE 0 "No hands detected" 0);
         ([], mkGestureInfo NONE 0 "No hands detected" 0);
         ([], mkGestureInfo NONE 0 "No hands detected" 0)]) ∧
  get_current_gesture sample_session_pointing = (POINT, 0.9%float).
Proof.
  split; [reflexivity|].
  apply (process_frames_no_hands sample_process sample_overlay classify_gesture
           sample_session_pointing sample_session_pointing [[]; []; []] []
           [([], mkGestureInfo NONE 0 "No hands detected" 0);
            ([], mkGestureInfo NONE 0 "No hands detected" 0);
            ([], mkGestureInfo NONE 0 "No hands detected" 0)]
           eq_refl).
  repeat constructor.
Defined.

Lemma process_frame_never_dispatches_none_witness :
  ∃ self' called out,
    process_frame sample_process sample_overlay classify_gesture
      sample_session_on_point [mkHand pointing_hand] = Ok (self', called, out) ∧
    ("on_point", mkGestureInfo POINT 0.9 "Pointing gesture detected" 1) ∈ called ∧
    POINT ≠ NONE.
Proof.
  eexists _, _, _. split; [vm_compute; reflexivity|].
  split; [by apply list_elem_of_singleton|].
  apply (process_frame_never_dispatches_none sample_process sample_overlay
           sample_session_on_point _ [mkHand pointing_hand] _ _
           ltac:(vm_compute; reflexivity) "on_point"
           (mkGestureInfo POINT 0.9 "Pointing gesture detected" 1)).
  by apply list_elem_of_singleton.
Defined.

(** ** The remaining rules of the classifier *)

Lemma Prim2SF_003 : Prim2SF 0.03 = S754_finite false 8646911284551352 (-58).
Proof. vm_compute. reflexivity. Qed.
Lemma Prim2SF_005 : Prim2SF 0.05 = S754_finite false 7205759403792794 (-57).
Proof. vm_compute. reflexivity. Qed.

(** A distance that passes the PINCH test passes the distance test of
    OK_SIGN. *)
Lemma py_lt_003_005 d : py_lt d 0.03 = true → py_lt d 0.05 = true.
Proof.
  unfold py_lt. rewrite !ltb_spec, Prim2SF_003, Prim2SF_005.
  unfold SFltb, SFcompare.
  destruct (Prim2SF d) as [s|s| |s m e]; try done.
  destruct s; [done|].
  destruct (Z.compare_spec e (-58)) as [->|Hlt|Hgt]; try done; intros _.
  by destruct (Z.compare_spec e (-57)) as [?|?|?]; [lia| |lia].
Qed.

Lemma classify_gesture_decide self lm fs t i m r p :
  21 ≤ length lm →
  _get_finger_states self lm = Ok fs →
  fs !! "thumb" = Some t → fs !! "index" = Some i →
  fs !! "middle" = Some m → fs !! "ring" = Some r → fs !! "pinky" = Some p →
  classify_gesture self lm
  = decide_gesture t i m r p (distance_2d (lm !!! 4) (lm !!! 8)).
Proof.
  intros Hlen Hfs Ht Hi Hm Hr Hp.
  rewrite classify_gesture_long, Hfs by done. cbn.
  destruct (_get_finger_states_inv _ _ _ Hlen Hfs) as (tw & mw & _ & _ & ->).
  rewrite _analyze_gesture_pattern_of by lia.
  pose proof (finger_states_of_lookup
    (py_gt tw (mw * 1.2)%float)
    (py_lt (y (lm !!! 8)) (y (lm !!! 5)))
    (py_lt (y (lm !!! 12)) (y (lm !!! 9)))
    (py_lt (y (lm !!! 16)) (y (lm !!! 13)))
    (py_lt (y (lm !!! 20)) (y (lm !!! 17)))) as (Ht' & Hi' & Hm' & Hr' & Hp').
  congruence.
Qed.

(** X5: THUMBS_UP and PEACE are decided by the finger states alone.  On a
    skeleton of 21 landmarks or more whose finger states are computed, a
    thumb extended with the four fingers bent gives THUMBS_UP at 0.8; index
    and middle extended with ring and pinky bent give PEACE at 0.8, whatever
    the thumb; and no other vector of finger states gives either. *)
Theorem classify_gesture_thumbs_up_peace self lm fs t i m r p :
  21 ≤ length lm →
  _get_finger_states self lm = Ok fs →
  fs !! "thumb" = Some t → fs !! "index" = Some i →
  fs !! "middle" = Some m → fs !! "ring" = Some r → fs !! "pinky" = Some p →
  (t && negb i && negb m && negb r && negb p = true →
   classify_gesture self lm
   = Ok (mkGestureResult THUMBS_UP 0.8 "Thumbs up gesture detected")) ∧
  (i && m && negb r && negb p = true →
   classify_gesture self lm
   = Ok (mkGestureResult PEACE 0.8 "Peace sign detected")) ∧
  ∀ res, classify_gesture self lm = Ok res →
    (gesture res = THUMBS_UP ↔ t && negb i && negb m && negb r && negb p = true) ∧
    (gesture res = PEACE ↔ i && m && negb r && negb p = true).
Proof.
  intros Hlen Hfs Ht Hi Hm Hr Hp.
  rewrite (classify_gesture_decide _ _ _ _ _ _ _ _ Hlen Hfs Ht Hi Hm Hr Hp).
  unfold decide_gesture. clear.
  destruct t, i, m, r, p; cbn; (split; [done|]); (split; [done|]);
    intros res;
    try (intros [= <-]; by split; split);
    (destruct (distance_2d _ _) as [d|]; cbn; [|done]);
    repeat (match goal with |- context [if ?b then _ else _] => destruct b end);
    intros [= <-]; by split; split.
Qed.

(** X6: the two gestures that look at the distance [d] of the tips of thumb
    and index.  The result is OK_SIGN exactly when middle, ring and pinky are
    extended, thumb and index are not both extended, and [d < 0.05]; it is
    PINCH exactly when [d < 0.03], middle, ring and pinky are not all
    extended, some finger other than the thumb is extended, and the fingers
    show neither the pattern of POINT nor that of PEACE.  A hand with middle,
    ring and pinky extended is never a PINCH, however close the tips. *)
Theorem classify_gesture_ok_sign_pinch self lm fs t i m r p res :
  21 ≤ length lm →
  _get_finger_states self lm = Ok fs →
  fs !! "thumb" = Some t → fs !! "index" = Some i →
  fs !! "middle" = Some m → fs !! "ring" = Some r → fs !! "pinky" = Some p →
  classify_gesture self lm = Ok res →
  (gesture res = OK_SIGN ↔
     ∃ d, distance_2d (lm !!! 4) (lm !!! 8) = Ok d ∧
          m && r && p && negb (t && i) && py_lt d 0.05 = true) ∧
  (gesture res = PINCH ↔
     ∃ d, distance_2d (lm !!! 4) (lm !!! 8) = Ok d ∧
          py_lt d 0.03 = true ∧
          negb (m && r && p) &&
          negb (i && negb m && negb r && negb p) &&
          negb (i && m && negb r && negb p) &&
          (i || m || r || p) = true) ∧
  (gesture res = PINCH → m && r && p = false).
Proof.
  intros Hlen Hfs Ht Hi Hm Hr Hp.
  rewrite (classify_gesture_decide _ _ _ _ _ _ _ _ Hlen Hfs Ht Hi Hm Hr Hp).
  unfold decide_gesture.
  destruct (distance_2d (lm !!! 4) (lm !!! 8)) as [d|]; cbn.
  - pose proof (py_lt_003_005 d) as H35. unfold py_lt in *.
    destruct (d <? 0.03)%float eqn:E3, (d <? 0.05)%float eqn:E5;
      [ | by specialize (H35 eq_refl) | | ];
      destruct t, i, m, r, p; cbn; intros [= <-]; cbn; repeat split; try done;
      try (intros (d' & [= <-] & ?); congruence);
      try (intros (d' & [= <-] & ? & ?); congruence);
      try (intros _; exists d; by rewrite ?E3, ?E5).
  - destruct t, i, m, r, p; cbn; try done; intros [= <-]; cbn;
      repeat split; try done; by intros (d' & [=] & ?).
Qed.

(** ** get_finger_positions and calculate_distances *)

Lemma get_finger_positions_eq {Hands} (self : @HandTracker Hands) lm :
  21 ≤ length lm →
  get_finger_positions self lm
  = Ok (<["pinky" := lm !!! 20]> (<["ring" := lm !!! 16]>
        (<["middle" := lm !!! 12]> (<["index" := lm !!! 8]>
        (<["thumb" := lm !!! 4]> ∅))))).
Proof.
  intros Hlen. unfold get_finger_positions.
  destruct (Nat.ltb_spec (length lm) 21) as [|_]; [lia|].
  unfold finger_tips, py_for. by rewrite !py_getitem_lt by lia.
Qed.

(** X10: [get_finger_positions] never raises.  It answers the empty dict on
    fewer than 21 landmarks; on 21 or more, a dict of exactly the five finger
    names, each with the landmark at the tip of that finger, the last of the
    four indices that [_get_finger_states] uses for it. *)
Theorem get_finger_positions_spec {Hands} (self : @HandTracker Hands) lm :
  ∃ positions, get_finger_positions self lm = Ok positions ∧
    (length lm < 21 → positions = ∅) ∧
    (21 ≤ length lm →
       dom positions = {["thumb"; "index"; "middle"; "ring"; "pinky"]} ∧
       ∀ finger indices, (finger, indices) ∈ fingers →
         ∃ tip, indices !! 3 = Some tip ∧ tip < length lm ∧
                positions !! finger = lm !! tip).
Proof.
  destruct (decide (length lm < 21)) as [Hlt|Hge].
  - exists ∅. unfold get_finger_positions.
    destruct (Nat.ltb_spec (length lm) 21) as [_|]; [|lia].
    split; [done|]. split; [done|]. intros ?. lia.
  - eexists. split; [apply get_finger_positions_eq; lia|].
    split; [lia|]. intros _. split.
    { rewrite !dom_insert_L, dom_empty_L. set_solver. }
    intros finger indices Hin. unfold fingers in Hin.
    repeat (apply elem_of_cons in Hin as [[= -> ->] | Hin]);
      [..|by apply elem_of_nil in Hin];
      eexists; (split; [reflexivity|]); (split; [lia|]);
      simplify_map_eq; symmetry; apply list_lookup_lookup_total_lt; lia.
Qed.

(** ** Symmetry of the computed distance *)

Section Binary64Symmetry.
Local Open Scope Z_scope.

Lemma SFabs_binary_round s s' m e :
  SFabs (binary_round prec emax s m e) = SFabs (binary_round prec emax s' m e).
Proof.
  unfold binary_round, binary_round_aux.
  destruct (shl_align m e _) as [mz ez].
  destruct (shr_fexp prec emax (Zpos mz) ez loc_Exact) as [mrs' e'].
  destruct (shr_fexp prec emax _ e' loc_Exact) as [mrs'' e''].
  destruct (shr_m mrs''); [done| |done].
  by destruct (e'' <=? emax - prec).
Qed.

Lemma SFabs_binary_normalize_opp m e :
  SFabs (binary_normalize prec emax m e false)
  = SFabs (binary_normalize prec emax (- m) e false).
Proof. destruct m; simpl; [done|apply SFabs_binary_round..]. Qed.

Lemma SFabs_SFsub_comm f g : SFabs (SF64sub f g) = SFabs (SF64sub g f).
Proof.
  destruct f as [sf|sf| |sf mf ef], g as [sg|sg| |sg mg eg]; simpl; try done.
  - by destruct sf, sg.
  - by destruct sf, sg.
  - rewrite (Z.min_comm eg ef).
    rewrite (SFabs_binary_normalize_opp (_ - _)).
    f_equal. f_equal. lia.
Qed.

Lemma SFmul_self_abs f : SF64mul f f = SF64mul (SFabs f) (SFabs f).
Proof. by destruct f as [[]|[]| |[] m e]. Qed.

End Binary64Symmetry.

Lemma Prim2SF_abs_eq a b :
  SFabs (Prim2SF a) = SFabs (Prim2SF b) →
  (a * a = b * b)%float ∧ is_finite a = is_finite b.
Proof.
  intros H. split.
  - apply Prim2SF_inj. rewrite !FloatAxioms.mul_spec.
    by rewrite (SFmul_self_abs (Prim2SF a)), (SFmul_self_abs (Prim2SF b)), H.
  - unfold is_finite, is_nan, is_infinity.
    rewrite !FloatAxioms.eqb_spec, !FloatAxioms.abs_spec, H. f_equal. f_equal. f_equal.
    unfold SFeqb.
    destruct (Prim2SF a) as [sa|sa| |sa ma ea], (Prim2SF b) as [sb|sb| |sb mb eb];
      try done; simpl in *.
    + by destruct sa, sb.
    + injection H as -> ->.
      destruct sa, sb; by rewrite ?Z.compare_refl, ?Pos.compare_cont_refl.
Qed.

Lemma py_float_pow2_sub_comm a b : py_float_pow2 (a - b) = py_float_pow2 (b - a).
Proof.
  unfold py_float_pow2. cbv zeta.
  destruct (Prim2SF_abs_eq (a - b) (b - a)) as [-> ->]; [|done].
  rewrite !FloatAxioms.sub_spec. apply SFabs_SFsub_comm.
Qed.

Lemma distance_2d_comm p q : distance_2d p q = distance_2d q p.
Proof.
  unfold distance_2d.
  by rewrite (py_float_pow2_sub_comm (x p)), (py_float_pow2_sub_comm (y p)).
Qed.

Lemma Prim2SF_0 : Prim2SF 0 = S754_zero false.
Proof. vm_compute. reflexivity. Qed.

(** A number in range minus itself is [+0]. *)
Lemma sub_self_in_range a : in_range a = true → (a - a = 0)%float.
Proof.
  intros Ha%in_range_below. apply Prim2SF_inj.
  rewrite FloatAxioms.sub_spec, Prim2SF_0.
  destruct (Prim2SF a) as [s|s| |s m e]; try done.
  - by destruct s.
  - simpl. rewrite Z.min_id. unfold shl_align. rewrite Z.sub_diag. simpl.
    by rewrite ?Z.sub_diag.
Qed.

Lemma distance_2d_self p :
  landmark_in_range p = true → distance_2d p p = Ok 0%float.
Proof.
  unfold landmark_in_range. intros [Hx Hy]%andb_prop.
  unfold distance_2d. by rewrite !sub_self_in_range by done.
Qed.

Lemma euclidean_distance_eq p1 p2 : euclidean_distance p1 p2 = distance_2d p1 p2.
Proof. reflexivity. Qed.

Lemma calculate_distances_eq {Hands} (self : @HandTracker Hands) lm :
  21 ≤ length lm →
  calculate_distances self lm =
    (thumb_index ← distance_2d (lm !!! 4) (lm !!! 8);
     thumb_middle ← distance_2d (lm !!! 4) (lm !!! 12);
     index_middle ← distance_2d (lm !!! 8) (lm !!! 12);
     thumb_wrist ← distance_2d (lm !!! 4) (lm !!! 0);
     index_wrist ← distance_2d (lm !!! 8) (lm !!! 0);
     Ok (<["index_wrist" := index_wrist]> (<["thumb_wrist" := thumb_wrist]>
          (<["index_middle" := index_middle]> (<["thumb_middle" := thumb_middle]>
          (<["thumb_index" := thumb_index]> ∅)))))).
Proof.
  intros Hlen. unfold calculate_distances.
  destruct (Nat.ltb_spec (length lm) 21) as [|_]; [lia|].
  cbv zeta. rewrite !py_getitem_lt by lia.
  by rewrite !bind_Ok, !euclidean_distance_eq.
Qed.

(** X12: [calculate_distances] answers the empty dict on fewer than 21
    landmarks.  On more it never raises for an index: what it can raise is
    the [OverflowError] of [**], and not on coordinates in range, where it
    returns its five distances; each is the distance of its two landmarks in
    either order. *)
Theorem calculate_distances_spec {Hands} (self : @HandTracker Hands) lm :
  (length lm < 21 → calculate_distances self lm = Ok ∅) ∧
  (∀ e, calculate_distances self lm = Raise e →
        e = OverflowError ∧ 21 ≤ length lm) ∧
  (21 ≤ length lm → Forall (λ l, landmark_in_range l = true) lm →
   ∃ distances, calculate_distances self lm = Ok distances ∧
     dom distances = {["thumb_index"; "thumb_middle"; "index_middle";
                       "thumb_wrist"; "index_wrist"]}) ∧
  (∀ distances, calculate_distances self lm = Ok distances → 21 ≤ length lm →
     euclidean_distance (lm !!! 8) (lm !!! 4)
     = py_dict_getitem distances "thumb_index" ∧
     euclidean_distance (lm !!! 12) (lm !!! 4)
     = py_dict_getitem distances "thumb_middle" ∧
     euclidean_distance (lm !!! 12) (lm !!! 8)
     = py_dict_getitem distances "index_middle" ∧
     euclidean_distance (lm !!! 0) (lm !!! 4)
     = py_dict_getitem distances "thumb_wrist" ∧
     euclidean_distance (lm !!! 0) (lm !!! 8)
     = py_dict_getitem distances "index_wrist").
Proof.
  split; [|split; [|split]].
  - intros Hlt. unfold calculate_distances.
    by destruct (Nat.ltb_spec (length lm) 21) as [_|]; [|lia].
  - intros e. destruct (decide (length lm < 21)) as [Hlt|Hge].
    { unfold calculate_distances.
      by destruct (Nat.ltb_spec (length lm) 21) as [_|]; [|lia]. }
    rewrite calculate_distances_eq by lia. intros He. split; [|lia]. revert He.
    repeat match goal with
    | |- (?m ≫= _) = Raise _ → _ =>
        destruct m eqn:?; cbn; [|intros [= <-]; by eapply distance_2d_raise]
    end. done.
  - intros Hlen Hrange.
    assert (Hi : ∀ i, i < 21 → landmark_in_range (lm !!! i) = true).
    { intros i Hi.
      apply (Forall_lookup_total_1 (λ l, landmark_in_range l = true) lm i Hrange).
      lia. }
    rewrite calculate_distances_eq by done.
    destruct (distance_2d_in_range (lm !!! 4) (lm !!! 8)) as [d1 ->]; [apply Hi; lia..|].
    destruct (distance_2d_in_range (lm !!! 4) (lm !!! 12)) as [d2 ->]; [apply Hi; lia..|].
    destruct (distance_2d_in_range (lm !!! 8) (lm !!! 12)) as [d3 ->]; [apply Hi; lia..|].
    destruct (distance_2d_in_range (lm !!! 4) (lm !!! 0)) as [d4 ->]; [apply Hi; lia..|].
    destruct (distance_2d_in_range (lm !!! 8) (lm !!! 0)) as [d5 ->]; [apply Hi; lia..|].
    cbn. eexists. split; [reflexivity|].
    rewrite !dom_insert_L, dom_empty_L. set_solver.
  - intros distances Hd Hlen. revert Hd.
    rewrite calculate_distances_eq by done.
    change euclidean_distance with distance_2d.
    rewrite (distance_2d_comm (lm !!! 8) (lm !!! 4)),
      (distance_2d_comm (lm !!! 12) (lm !!! 4)),
      (distance_2d_comm (lm !!! 12) (lm !!! 8)),
      (distance_2d_comm (lm !!! 0) (lm !!! 4)),
      (distance_2d_comm (lm !!! 0) (lm !!! 8)).
    destruct (distance_2d (lm !!! 4) (lm !!! 8)) as [d1|]; [cbn|done].
    destruct (distance_2d (lm !!! 4) (lm !!! 12)) as [d2|]; [cbn|done].
    destruct (distance_2d (lm !!! 8) (lm !!! 12)) as [d3|]; [cbn|done].
    destruct (distance_2d (lm !!! 4) (lm !!! 0)) as [d4|]; [cbn|done].
    destruct (distance_2d (lm !!! 8) (lm !!! 0)) as [d5|]; [cbn|done].
    intros [= <-]. unfold py_dict_getitem. by simplify_map_eq.
Qed.

(** X14: the classifier and [calculate_distances] agree on the distance of
    the tips of thumb and index: where both return on 21 landmarks or more,
    a PINCH has a ['thumb_index'] below 0.03, an OK_SIGN one below 0.05, and
    a NONE one that is not below 0.03. *)
Theorem calculate_distances_classify {Hands} (tracker : @HandTracker Hands)
    self lm distances res :
  21 ≤ length lm →
  calculate_distances tracker lm = Ok distances →
  classify_gesture self lm = Ok res →
  ∃ thumb_index, distances !! "thumb_index" = Some thumb_index ∧
    (gesture res = PINCH → py_lt thumb_index 0.03 = true) ∧
    (gesture res = OK_SIGN → py_lt thumb_index 0.05 = true) ∧
    (gesture res = NONE → py_lt thumb_index 0.03 = false).
Proof.
  intros Hlen. rewrite calculate_distances_eq, classify_gesture_eq by done.
  destruct (distance_2d (lm !!! 4) (lm !!! 8)) as [d1|]; [cbn|done].
  destruct (distance_2d (lm !!! 4) (lm !!! 12)) as [d2|]; [cbn|done].
  destruct (distance_2d (lm !!! 8) (lm !!! 12)) as [d3|]; [cbn|done].
  destruct (distance_2d (lm !!! 4) (lm !!! 0)) as [d4|]; [cbn|done].
  destruct (distance_2d (lm !!! 8) (lm !!! 0)) as [d5|]; [cbn|done].
  intros [= <-].
  destruct (distance_2d (lm !!! 1) (lm !!! 0)) as [d6|]; [cbn|done].
  exists d1. split; [by rewrite !lookup_insert_ne, lookup_insert_eq by done|].
  revert H. pose proof (py_lt_003_005 d1) as H35.
  match goal with
  | |- decide_gesture ?t ?i ?m ?r ?p _ = _ → _ => generalize t, i, m, r, p
  end.
  intros t i m r p. unfold decide_gesture, py_lt in *. cbn.
  destruct (d1 <? 0.03)%float, (d1 <? 0.05)%float;
    [|by specialize (H35 eq_refl)| |];
    destruct t, i, m, r, p; cbn; intros [= <-]; by repeat split.
Qed.

Lemma py_lt_0_003 : py_lt 0 0.03 = true.
Proof. vm_compute. reflexivity. Qed.

Lemma py_lt_0_005 : py_lt 0 0.05 = true.
Proof. vm_compute. reflexivity. Qed.

Lemma Forall_landmark_in_range lm i :
  Forall (λ l, landmark_in_range l = true) lm → i < length lm →
  landmark_in_range (lm !!! i) = true.
Proof.
  intros Hrange Hi.
  by apply (Forall_lookup_total_1 (λ l, landmark_in_range l = true) lm i Hrange).
Qed.

(** X7: with the tips of thumb and index at the same place of the image, on
    a skeleton of 21 landmarks or more with coordinates in range, the
    classifier returns, and never NONE; the confidence of what it returns
    passes the test of the dispatch. *)
Theorem classify_gesture_touching_tips self lm :
  21 ≤ length lm →
  Forall (λ l, landmark_in_range l = true) lm →
  x (lm !!! 4) = x (lm !!! 8) → y (lm !!! 4) = y (lm !!! 8) →
  ∃ res, classify_gesture self lm = Ok res ∧ gesture res ≠ NONE ∧
         py_gt (confidence res) 0.7 = true.
Proof.
  intros Hlen Hrange Hx Hy.
  assert (Hi : ∀ i, i < 21 → landmark_in_range (lm !!! i) = true).
  { intros i Hi. apply Forall_landmark_in_range; [done|lia]. }
  rewrite classify_gesture_eq by done.
  destruct (distance_2d_in_range (lm !!! 4) (lm !!! 0)) as [d4 ->]; [apply Hi; lia..|].
  destruct (distance_2d_in_range (lm !!! 1) (lm !!! 0)) as [d1 ->]; [apply Hi; lia..|].
  rewrite (distance_2d_ext (lm !!! 4) (lm !!! 8) (lm !!! 4) (lm !!! 4)) by done.
  rewrite distance_2d_self by (apply Hi; lia).
  rewrite !bind_Ok.
  match goal with
  | |- ∃ _, decide_gesture ?t ?i ?m ?r ?p _ = _ ∧ _ => generalize t, i, m, r, p
  end.
  intros t i m r p. unfold decide_gesture.
  rewrite bind_Ok, py_lt_0_003, py_lt_0_005.
  destruct t, i, m, r, p; cbn; eexists; (split; [reflexivity|]);
    (split; [done|vm_compute; reflexivity]).
Qed.

(** X8: the description of a result tells the two NONE of the classifier
    apart: it is ['No valid hand detected'] exactly on fewer than 21
    landmarks, and ['No recognized gesture'] exactly for NONE on 21 or more.
    It is never the text that [process_frame] gives for a frame without
    hands. *)
Theorem classify_gesture_description self lm res :
  classify_gesture self lm = Ok res →
  (description res = "No valid hand detected" ↔ length lm < 21) ∧
  (description res = "No recognized gesture" ↔ gesture res = NONE ∧ 21 ≤ length lm) ∧
  description res ≠ "No hands detected".
Proof.
  destruct (decide (length lm < 21)) as [Hlt|Hge].
  { unfold classify_gesture.
    destruct (Nat.ltb_spec (length lm) 21) as [_|]; [|lia].
    intros [= <-]. cbn. split; [done|]. split; [|done].
    split; [done|]. intros [_ ?]. lia. }
  rewrite classify_gesture_eq by lia.
  destruct (distance_2d (lm !!! 4) (lm !!! 0)) as [d4|]; [|done].
  destruct (distance_2d (lm !!! 1) (lm !!! 0)) as [d1|]; [|done].
  rewrite !bind_Ok.
  match goal with
  | |- decide_gesture ?t ?i ?m ?r ?p _ = _ → _ => generalize t, i, m, r, p
  end.
  intros t i m r p. unfold decide_gesture.
  destruct (distance_2d (lm !!! 4) (lm !!! 8)) as [d|];
    [rewrite bind_Ok; destruct (py_lt d 0.05), (py_lt d 0.03)|];
    destruct t, i, m, r, p; cbn; try done; intros [= <-]; cbn;
    (split; [split; [done|lia]|]); (split; [|done]);
    (split; [first [done | intros _; split; [done|lia]] | by intros [? _]]).
Qed.

Lemma get_gesture_description_eq self g :
  get_gesture_description self g =
  match g with
  | NONE => "No gesture detected"
  | POINT => "Pointing - Use to select or indicate direction"
  | OPEN_PALM => "Open palm - Stop or show command"
  | FIST => "Fist - Grab or power gesture"
  | THUMBS_UP => "Thumbs up - Approval or confirmation"
  | PEACE => "Peace sign - Victory or two items"
  | OK_SIGN => "OK sign - Confirmation or perfect"
  | PINCH => "Pinch - Precise selection or zoom"
  end.
Proof.
  unfold get_gesture_description, py_dict_get, py_dict_literal. cbn.
  destruct g; by simplify_map_eq.
Qed.

(** X9: [get_gesture_description] never falls back on its default
    ['Unknown gesture'], and gives different texts for different gesture
    types. *)
Theorem get_gesture_description_spec self :
  (∀ g, get_gesture_description self g ≠ "Unknown gesture") ∧
  (∀ g1 g2, get_gesture_description self g1 = get_gesture_description self g2 →
            g1 = g2).
Proof.
  split.
  - intros g. rewrite get_gesture_description_eq. by destruct g.
  - intros g1 g2. rewrite !get_gesture_description_eq.
    by destruct g1, g2.
Qed.

(** X11: [euclidean_distance] does not depend on the order of its points,
    in what it returns as in what it raises; it is 0 from a point in range to
    itself; it raises nothing but the [OverflowError] of [**], and not on two
    points in range. *)
Theorem euclidean_distance_symmetric p1 p2 :
  euclidean_distance p1 p2 = euclidean_distance p2 p1 ∧
  (landmark_in_range p1 = true → euclidean_distance p1 p1 = Ok 0%float) ∧
  (∀ e, euclidean_distance p1 p2 = Raise e →
        e = OverflowError ∧
        (landmark_in_range p1 = false ∨ landmark_in_range p2 = false)).
Proof.
  rewrite !euclidean_distance_eq. split; [apply distance_2d_comm|].
  split; [apply distance_2d_self|].
  intros e He. split; [by eapply distance_2d_raise|].
  destruct (landmark_in_range p1) eqn:E1; [|by left].
  destruct (landmark_in_range p2) eqn:E2; [|by right].
  destruct (distance_2d_in_range p1 p2 E1 E2) as [d Hd]. congruence.
Qed.

(** X13: on 21 landmarks or more, the distances of [calculate_distances]
    between the tips of thumb, index and middle are those of the positions
    that [get_finger_positions] gives for these fingers. *)
Theorem calculate_distances_finger_positions {Hands} (self : @HandTracker Hands)
    lm positions distances :
  21 ≤ length lm →
  get_finger_positions self lm = Ok positions →
  calculate_distances self lm = Ok distances →
  (thumb ← py_dict_getitem positions "thumb";
   index ← py_dict_getitem positions "index";
   euclidean_distance thumb index) = py_dict_getitem distances "thumb_index" ∧
  (thumb ← py_dict_getitem positions "thumb";
   middle ← py_dict_getitem positions "middle";
   euclidean_distance thumb middle) = py_dict_getitem distances "thumb_middle" ∧
  (index ← py_dict_getitem positions "index";
   middle ← py_dict_getitem positions "middle";
   euclidean_distance index middle) = py_dict_getitem distances "index_middle".
Proof.
  intros Hlen. rewrite get_finger_positions_eq, calculate_distances_eq by done.
  intros [= <-].
  destruct (distance_2d (lm !!! 4) (lm !!! 8)) as [d1|] eqn:E1; [cbn|done].
  destruct (distance_2d (lm !!! 4) (lm !!! 12)) as [d2|] eqn:E2; [cbn|done].
  destruct (distance_2d (lm !!! 8) (lm !!! 12)) as [d3|] eqn:E3; [cbn|done].
  destruct (distance_2d (lm !!! 4) (lm !!! 0)) as [d4|]; [cbn|done].
  destruct (distance_2d (lm !!! 8) (lm !!! 0)) as [d5|]; [cbn|done].
  intros [= <-]. unfold py_dict_getitem. simplify_map_eq.
  repeat split; assumption.
Qed.


Section SessionInvariants.

Context {Frame VideoCapture Hands Callback : Type}.
Variable Hands_process : Hands → Frame → result ((Frame * list Hand) * Hands).
Variable draw_overlay : Frame → GestureInfo → Frame.
Variable classify : GestureClassifier → list Landmark → result GestureResult.

(** What a call of [process_frame] that returns has done. *)
Lemma process_frame_inv
    (self self' : @ARInterface VideoCapture Hands Callback) frame called out :
  process_frame Hands_process draw_overlay classify self frame
  = Ok (self', called, out) →
  ∃ tracker h annotated detected h',
    hand_tracker self = Some tracker ∧ hands tracker = Some h ∧
    Hands_process h frame = Ok ((annotated, detected), h') ∧
    self' = set_gesture_confidence (gesture_confidence self')
              (set_current_gesture (current_gesture self')
                 (set_hand_tracker (Some (mkHandTracker (Some h'))) self)) ∧
    hand_count out.2 = length detected ∧
    out.1 = (if show_gesture_info self then draw_overlay annotated out.2
             else annotated) ∧
    match detected with
    | [] =>
        called = [] ∧ get_current_gesture self' = get_current_gesture self ∧
        out.2 = mkGestureInfo NONE 0 "No hands detected" 0
    | hand :: _ =>
        ∃ r, classify (gesture_classifier self) (landmarks hand) = Ok r ∧
          out.2 = update (mkGestureInfo NONE 0 "No hands detected" (length detected)) r ∧
          get_current_gesture self' = (gesture r, confidence r) ∧
          called = if py_gt (confidence r) 0.7
                   then match gesture_callbacks self !! gesture r with
                        | Some callback => [(callback, out.2)]
                        | None => []
                        end
                   else []
    end.
Proof.
  unfold process_frame, detect_hands.
  destruct (hand_tracker self) as [tracker|] eqn:Htracker; [cbn | done].
  destruct (hands tracker) as [h|] eqn:Hh; [cbn | done].
  destruct (Hands_process h frame) as [[[annotated detected] h']|] eqn:Hdetect;
    [cbn | done].
  destruct detected as [|hand others]; cbn.
  - intros [= <- <- <-].
    exists tracker, h, annotated, [], h'. by destruct self.
  - destruct (classify _ _) as [r|] eqn:Hr; [cbn | done].
    unfold py_in, py_dict_getitem, py_gt.
    destruct (gesture_callbacks self !! gesture r) as [cb|] eqn:Hcb.
    + rewrite bool_decide_eq_true_2 by eauto.
      destruct (0.7 <? confidence r)%float eqn:Hgt; cbn;
        intros [= <- <- <-];
        exists tracker, h, annotated, (hand :: others), h';
        (repeat (split; [by destruct self|])); exists r; cbn;
        by rewrite Hgt, ?Hcb.
    + rewrite bool_decide_eq_false_2 by (by intros [? ?]).
      rewrite andb_false_r. cbn. intros [= <- <- <-].
      exists tracker, h, annotated, (hand :: others), h'.
      (repeat (split; [by destruct self|])). exists r. cbn. rewrite Hcb.
      by destruct (0.7 <? confidence r)%float.
Qed.


(** X16: [show_landmarks] is never read by [process_frame], and
    [show_gesture_info] decides nothing but the overlay: whatever the display
    options, the session, the callbacks called and the gesture_info returned
    are the same, and what is raised is the same.  With [show_gesture_info]
    off, the frame returned is the one of the detector. *)
Theorem process_frame_display_options
    (self : @ARInterface VideoCapture Hands Callback) frame
    (show_landmarks' show_gesture_info' : option bool) :
  (∀ self' called out,
     process_frame Hands_process draw_overlay classify self frame
     = Ok (self', called, out) →
     ∃ out_frame,
       process_frame Hands_process draw_overlay classify
         (set_display_options self show_landmarks' show_gesture_info') frame
       = Ok (set_display_options self' show_landmarks' show_gesture_info',
             called, (out_frame, out.2)) ∧
       (default true show_gesture_info' = show_gesture_info self →
        out_frame = out.1)) ∧
  (∀ e, process_frame Hands_process draw_overlay classify self frame = Raise e →
        process_frame Hands_process draw_overlay classify
          (set_display_options self show_landmarks' show_gesture_info') frame
        = Raise e) ∧
  (∀ self' called out,
     process_frame Hands_process draw_overlay classify
       (set_display_options self show_landmarks' (Some false)) frame
     = Ok (self', called, out) →
     ∃ tracker h detected h',
       hand_tracker self = Some tracker ∧ hands tracker = Some h ∧
       Hands_process h frame = Ok ((out.1, detected), h') ∧
       hand_count out.2 = length detected).
Proof.
  split; [|split].
  - intros self' called out. unfold process_frame, set_display_options. cbn.
    destruct (py_attr (hand_tracker self)) as [tracker|]; [cbn | done].
    destruct (detect_hands Hands_process tracker frame)
      as [[[annotated detected] tracker']|]; [cbn | done].
    destruct detected as [|hand others]; cbn.
    { intros [= <- <- <-]. eexists. split; [reflexivity|]. by intros ->. }
    destruct (classify _ _) as [r|]; [cbn | done].
    match goal with |- context [if ?b then _ else _] => destruct b end; cbn.
    + destruct (py_dict_getitem _ _) as [cb|]; [cbn | done].
      intros [= <- <- <-]. eexists. split; [reflexivity|]. by intros ->.
    + intros [= <- <- <-]. eexists. split; [reflexivity|]. by intros ->.
  - intros e. unfold process_frame, set_display_options. cbn.
    destruct (py_attr (hand_tracker self)) as [tracker|]; [cbn | done].
    destruct (detect_hands Hands_process tracker frame)
      as [[[annotated detected] tracker']|]; [cbn | done].
    destruct detected as [|hand others]; cbn; [done|].
    destruct (classify _ _) as [r|]; [cbn | done].
    match goal with |- context [if ?b then _ else _] => destruct b end; cbn;
      [|done].
    by destruct (py_dict_getitem _ _) as [cb|].
  - intros self' called out Hcall.
    destruct (process_frame_inv _ _ _ _ _ Hcall)
      as (tracker & h & annotated & detected & h' & Ht & Hh & Hd & _ & Hn & Hf & _).
    cbn in Ht, Hf. subst annotated. by exists tracker, h, detected, h'.
Qed.

End SessionInvariants.

Section SessionClassifier.

Context {Frame VideoCapture Hands Callback : Type}.
Variable Hands_process : Hands → Frame → result ((Frame * list Hand) * Hands).
Variable draw_overlay : Frame → GestureInfo → Frame.


(** X18: with the classifier of the repository, the description returned by
    [process_frame] is ['No hands detected'] exactly when no hand was
    counted, and then the gesture is NONE; it is ['No valid hand detected']
    only with a hand counted and the gesture NONE. *)
Theorem process_frame_description
    (self self' : @ARInterface VideoCapture Hands Callback) frame called out :
  process_frame Hands_process draw_overlay classify_gesture self frame
  = Ok (self', called, out) →
  (info_description out.2 = "No hands detected" ↔ hand_count out.2 = 0) ∧
  (hand_count out.2 = 0 → info_gesture out.2 = NONE ∧ called = []) ∧
  (info_description out.2 = "No valid hand detected" →
   hand_count out.2 ≠ 0 ∧ info_gesture out.2 = NONE ∧ called = []).
Proof.
  intros Hcall.
  destruct (process_frame_inv Hands_process draw_overlay classify_gesture
              _ _ _ _ _ Hcall)
    as (tracker & h & annotated & detected & h' & _ & _ & _ & _ & Hn & _ & Hcases).
  destruct detected as [|hand others].
  - destruct Hcases as (-> & _ & ->). cbn. by repeat split.
  - destruct Hcases as (r & Hr & -> & _ & ->). cbn.
    apply classify_gesture_results in Hr. unfold gesture_results in Hr.
    repeat (apply elem_of_cons in Hr as [-> | Hr]); [..|by apply elem_of_nil in Hr];
      cbn; repeat split; done.
Qed.

End SessionClassifier.

Section CameraProperties.

Context {VideoCapture Hands Callback : Type}.
Variable cv2_VideoCapture : Z → result VideoCapture.
Variable VideoCapture_set : VideoCapture → Z → Z → result bool * VideoCapture.
Variable VideoCapture_isOpened : VideoCapture → result bool.
Variable VideoCapture_release : VideoCapture → result VideoCapture.
Variable cv2_destroyAllWindows : result ().

(** X19: [start_camera] returns True exactly when the capture is created,
    both [set] return, whatever they answer, and the capture reports that it
    is open; the session is then running, with that capture.  When it returns
    False the running flag is left as it was, so that a failed restart
    leaves a running session marked as running.  When [cv2.VideoCapture]
    itself raises, nothing of the session has changed; otherwise the session
    holds a capture afterwards.  The callbacks, the tracker and the current
    gesture are never touched. *)
Theorem start_camera_spec (self self' : @ARInterface VideoCapture Hands Callback) ok :
  start_camera cv2_VideoCapture VideoCapture_set VideoCapture_isOpened self
  = (self', ok) →
  (ok = true ↔
     ∃ c r1 c1 r2 c2,
       cv2_VideoCapture (camera_index self) = Ok c ∧
       VideoCapture_set c CAP_PROP_FRAME_WIDTH (frame_width self) = (Ok r1, c1) ∧
       VideoCapture_set c1 CAP_PROP_FRAME_HEIGHT (frame_height self) = (Ok r2, c2) ∧
       VideoCapture_isOpened c2 = Ok true) ∧
  (ok = true →
     is_running self' = true ∧
     ∃ c, cap self' = Some c ∧ VideoCapture_isOpened c = Ok true) ∧
  (ok = false → is_running self' = is_running self) ∧
  (∀ e, cv2_VideoCapture (camera_index self) = Raise e → self' = self) ∧
  (∀ c, cv2_VideoCapture (camera_index self) = Ok c → is_Some (cap self')) ∧
  gesture_callbacks self' = gesture_callbacks self ∧
  hand_tracker self' = hand_tracker self ∧
  get_current_gesture self' = get_current_gesture self.
Proof.
  unfold start_camera.
  destruct (cv2_VideoCapture (camera_index self)) as [c|e] eqn:Ec.
  2:{ intros [= <- <-]. split; [split; [done|by intros (? & ? & ? & ? & ? & [=] & _)]|].
      by repeat split. }
  cbn.
  destruct (VideoCapture_set c _ _) as [r1 c1] eqn:E1.
  destruct r1 as [r1|e1]; cbn.
  2:{ intros [= <- <-]. split; [split; [done|]|].
      - intros (? & ? & ? & ? & ? & [= <-] & H1 & _). congruence.
      - repeat split; try done; by eexists. }
  destruct (VideoCapture_set c1 _ _) as [r2 c2] eqn:E2.
  destruct r2 as [r2|e2]; cbn.
  2:{ intros [= <- <-]. split; [split; [done|]|].
      - intros (? & ? & ? & ? & ? & [= <-] & H1 & H2 & _).
        rewrite E1 in H1. injection H1 as <- <-. congruence.
      - repeat split; try done; by eexists. }
  destruct (VideoCapture_isOpened c2) as [opened|e3] eqn:E3; cbn.
  2:{ intros [= <- <-]. split; [split; [done|]|].
      - intros (? & ? & ? & ? & ? & [= <-] & H1 & H2 & H3).
        rewrite E1 in H1. injection H1 as <- <-.
        rewrite E2 in H2. injection H2 as <- <-. congruence.
      - repeat split; try done; by eexists. }
  destruct opened; cbn; intros [= <- <-].
  - split; [split; [intros _; by exists c, r1, c1, r2, c2|done]|].
    cbn. repeat split; try done; by eexists.
  - split; [split; [done|]|].
    + intros (? & ? & ? & ? & ? & [= <-] & H1 & H2 & H3).
      rewrite E1 in H1. injection H1 as <- <-.
      rewrite E2 in H2. injection H2 as <- <-. congruence.
    + repeat split; try done; by eexists.
Qed.

(** The end of [stop_camera] after a [start_camera] that has created a
    capture and returned False. *)
Local Ltac after_failed_start :=
  intros [= <- <-]; cbn;
  match goal with
  | |- context [VideoCapture_release ?c] =>
      destruct (VideoCapture_release c); [cbn|done]
  end;
  destruct cv2_destroyAllWindows; [cbn|done];
  intros [= <-]; cbn;
  (split; [done|]); (split; [done|]);
  (split; [done|by intros (_ & ? & [=])]).

(** X20: [stop_camera] after [start_camera]: where it returns, the session
    is not running; after a start that returned True, the capture released is
    the one that start has opened, and the session keeps it afterwards.  The
    session holds no capture afterwards only if it held none before and
    [cv2.VideoCapture] has raised. *)
Theorem start_camera_stop_camera
    (self self1 self2 : @ARInterface VideoCapture Hands Callback) ok :
  start_camera cv2_VideoCapture VideoCapture_set VideoCapture_isOpened self
  = (self1, ok) →
  stop_camera VideoCapture_release cv2_destroyAllWindows self1 = Ok self2 →
  is_running self2 = false ∧
  (ok = true →
     ∃ c c', cap self1 = Some c ∧ VideoCapture_isOpened c = Ok true ∧
             VideoCapture_release c = Ok c' ∧ cap self2 = Some c') ∧
  (cap self2 = None ↔
     cap self = None ∧ ∃ e, cv2_VideoCapture (camera_index self) = Raise e).
Proof.
  unfold start_camera, stop_camera.
  destruct (cv2_VideoCapture (camera_index self)) as [c|e]; cbn.
  2:{ intros [= <- <-]. cbn. destruct (cap self) as [c|] eqn:Hcap; cbn.
      - destruct (VideoCapture_release c) as [c'|]; [cbn|done].
        destruct cv2_destroyAllWindows; [cbn|done]. intros [= <-]. cbn.
        split; [done|]. split; [done|]. split; [by intros [=]|by intros [[=] _]].
      - destruct cv2_destroyAllWindows; [cbn|done]. intros [= <-]. cbn.
        split; [done|]. split; [done|]. split; [by eauto|done]. }
  destruct (VideoCapture_set c _ _) as [[r1|e1] c1]; cbn;
    [|by after_failed_start].
  destruct (VideoCapture_set c1 _ _) as [[r2|e2] c2]; cbn;
    [|by after_failed_start].
  destruct (VideoCapture_isOpened c2) as [[]|e3] eqn:E3; cbn;
    [| by after_failed_start..].
  intros [= <- <-]. cbn.
  destruct (VideoCapture_release c2) as [c'|] eqn:Er; [cbn|done].
  destruct cv2_destroyAllWindows; [cbn|done]. intros [= <-]. cbn.
  split; [done|]. split; [intros _; by exists c2, c'|].
  split; [done|by intros (_ & ? & [=])].
Qed.

End CameraProperties.

(** ** Instances on the sample skeletons and sessions *)

Lemma classify_gesture_thumbs_up_peace_witness :
  21 ≤ length thumbs_up_hand ∧
  _get_finger_states (GestureClassifier_init None) thumbs_up_hand
  = Ok (finger_states_of true false false false false) ∧
  classify_gesture (GestureClassifier_init None) thumbs_up_hand
  = Ok (mkGestureResult THUMBS_UP 0.8 "Thumbs up gesture detected").
Proof.
  split; [vm_compute; lia|]. split; [vm_compute; reflexivity|].
  destruct (classify_gesture_thumbs_up_peace (GestureClassifier_init None)
              thumbs_up_hand (finger_states_of true false false false false)
              true false false false false
              ltac:(vm_compute; lia) ltac:(vm_compute; reflexivity)
              ltac:(vm_compute; reflexivity) ltac:(vm_compute; reflexivity)
              ltac:(vm_compute; reflexivity) ltac:(vm_compute; reflexivity)
              ltac:(vm_compute; reflexivity)) as (H & _ & _).
  apply H. reflexivity.
Defined.

Lemma classify_gesture_ok_sign_pinch_witness :
  21 ≤ length ok_hand ∧
  _get_finger_states (GestureClassifier_init None) ok_hand
  = Ok (finger_states_of true false true true true) ∧
  classify_gesture (GestureClassifier_init None) ok_hand
  = Ok (mkGestureResult OK_SIGN 0.8 "OK sign detected") ∧
  ∃ d, distance_2d (ok_hand !!! 4) (ok_hand !!! 8) = Ok d ∧
       true && true && true && negb (true && false) && py_lt d 0.05 = true.
Proof.
  split; [vm_compute; lia|]. split; [vm_compute; reflexivity|].
  split; [vm_compute; reflexivity|].
  destruct (classify_gesture_ok_sign_pinch (GestureClassifier_init None)
              ok_hand (finger_states_of true false true true true)
              true false true true true
              (mkGestureResult OK_SIGN 0.8 "OK sign detected")
              ltac:(vm_compute; lia) ltac:(vm_compute; reflexivity)
              ltac:(vm_compute; reflexivity) ltac:(vm_compute; reflexivity)
              ltac:(vm_compute; reflexivity) ltac:(vm_compute; reflexivity)
              ltac:(vm_compute; reflexivity) ltac:(vm_compute; reflexivity))
    as (H & _ & _).
  apply H. reflexivity.
Defined.

Lemma calculate_distances_classify_witness :
  21 ≤ length pinch_hand ∧
  classify_gesture (GestureClassifier_init None) pinch_hand
  = Ok (mkGestureResult PINCH 0.8 "Pinch gesture detected") ∧
  ∃ distances thumb_index,
    calculate_distances (@mkHandTracker bool (Some false)) pinch_hand
    = Ok distances ∧
    distances !! "thumb_index" = Some thumb_index ∧
    py_lt thumb_index 0.03 = true.
Proof.
  split; [vm_compute; lia|]. split; [vm_compute; reflexivity|].
  destruct (calculate_distances (@mkHandTracker bool (Some false)) pinch_hand)
    as [distances|e] eqn:E; [|by vm_compute in E].
  destruct (calculate_distances_classify (@mkHandTracker bool (Some false))
              (GestureClassifier_init None) pinch_hand distances
              (mkGestureResult PINCH 0.8 "Pinch gesture detected")
              ltac:(vm_compute; lia) E ltac:(vm_compute; reflexivity))
    as (thumb_index & Hlook & Hpinch & _).
  exists distances, thumb_index. split; [reflexivity|]. split; [exact Hlook|].
  apply Hpinch. reflexivity.
Defined.

Lemma classify_gesture_touching_tips_witness :
  21 ≤ length flat_hand ∧
  Forall (λ l, landmark_in_range l = true) flat_hand ∧
  ∃ res, classify_gesture (GestureClassifier_init None) flat_hand = Ok res ∧
         gesture res ≠ NONE ∧ py_gt (confidence res) 0.7 = true.
Proof.
  assert (H : Forall (λ l, landmark_in_range l = true) flat_hand).
  { apply Forall_replicate. vm_compute. reflexivity. }
  split; [vm_compute; lia|]. split; [exact H|].
  apply (classify_gesture_touching_tips (GestureClassifier_init None) flat_hand
           ltac:(vm_compute; lia) H eq_refl eq_refl).
Defined.

Lemma classify_gesture_description_witness :
  classify_gesture (GestureClassifier_init None) []
  = Ok (mkGestureResult NONE 0 "No valid hand detected") ∧
  length ([] : list Landmark) < 21.
Proof.
  split; [reflexivity|].
  apply (classify_gesture_description (GestureClassifier_init None) []
           (mkGestureResult NONE 0 "No valid hand detected") eq_refl).
  reflexivity.
Defined.

Lemma calculate_distances_finger_positions_witness :
  21 ≤ length ok_hand ∧
  ∃ positions distances,
    get_finger_positions (@mkHandTracker bool (Some false)) ok_hand = Ok positions ∧
    calculate_distances (@mkHandTracker bool (Some false)) ok_hand = Ok distances ∧
    (thumb ← py_dict_getitem positions "thumb";
     index ← py_dict_getitem positions "index";
     euclidean_distance thumb index) = py_dict_getitem distances "thumb_index".
Proof.
  split; [vm_compute; lia|].
  destruct (get_finger_positions (@mkHandTracker bool (Some false)) ok_hand)
    as [positions|e] eqn:Ep; [|by vm_compute in Ep].
  destruct (calculate_distances (@mkHandTracker bool (Some false)) ok_hand)
    as [distances|e] eqn:Ed; [|by vm_compute in Ed].
  exists positions, distances. split; [reflexivity|]. split; [reflexivity|].
  apply (calculate_distances_finger_positions (@mkHandTracker bool (Some false))
           ok_hand positions distances ltac:(vm_compute; lia) Ep Ed).
Defined.



Lemma process_frame_description_witness :
  ∃ self' called out,
    process_frame sample_process sample_overlay classify_gesture
      sample_session_pointing [] = Ok (self', called, out) ∧
    hand_count out.2 = 0 ∧
    info_description out.2 = "No hands detected".
Proof.
  destruct (process_frame sample_process sample_overlay classify_gesture
              sample_session_pointing [])
    as [[[self' called] out]|e] eqn:E; [|by vm_compute in E].
  exists self', called, out. split; [reflexivity|].
  assert (Hn : hand_count out.2 = 0) by (by injection E as <- <- <-).
  split; [exact Hn|].
  apply (process_frame_description sample_process sample_overlay
           sample_session_pointing self' [] called out E).
  exact Hn.
Defined.

Lemma start_camera_spec_witness :
  start_camera sample_VideoCapture refusing_set sample_isOpened sample_session
  = (set_is_running true (set_cap (Some false) sample_session), true) ∧
  is_running (set_is_running true (set_cap (Some false) sample_session)) = true ∧
  ∃ c, cap (set_is_running true (set_cap (Some false) sample_session)) = Some c ∧
       sample_isOpened c = Ok true.
Proof.
  split; [reflexivity|].
  apply (start_camera_spec sample_VideoCapture refusing_set sample_isOpened
           sample_session _ true eq_refl).
  reflexivity.
Defined.

Lemma start_camera_stop_camera_witness :
  start_camera sample_VideoCapture sample_set sample_isOpened sample_session
  = (set_is_running true (set_cap (Some false) sample_session), true) ∧
  stop_camera sample_release (Ok ())
    (set_is_running true (set_cap (Some false) sample_session))
  = Ok (set_cap (Some true) sample_session) ∧
  is_running (set_cap (Some true) sample_session) = false.
Proof.
  split; [reflexivity|]. split; [reflexivity|].
  apply (start_camera_stop_camera sample_VideoCapture sample_set sample_isOpened
           sample_release (Ok ()) sample_session _ _ true eq_refl eq_refl).
Defined.
